(** * Notification server: email templates, SMS messages, provider calls,
      request validation and the keep-alive scheduler.

    A shallow embedding of the JavaScript sources.  A JavaScript string is a
    Rocq [string]; the five characters the sanitizer looks for and the braces
    and dollar sign of the SMS placeholders are ASCII, so scanning bytes and
    scanning UTF-16 code units find the same occurrences. *)

From Stdlib Require Import Bool Arith Lia List ZArith Ascii String DecimalString.
Import ListNotations.

Local Open Scope string_scope.
Local Open Scope bool_scope.

(** ** JavaScript strings *)

Module JsString.

(** The double-quote character. *)
Definition dq_char : ascii := "034"%char.
Definition dq : string := String dq_char "".
(** Line feed, the line separator of the template literals. *)
Definition nl : string := String "010"%char "".

(** A value used as a condition: [undefined] and the empty string are falsy. *)
Definition truthy (v : option string) : bool :=
  match v with
  | None => false
  | Some s => negb (s =? "")
  end.

(** [a || b] for an optional string [a] and a string [b]. *)
Definition js_or (a : option string) (b : string) : string :=
  match a with
  | Some s => if s =? "" then b else s
  | None => b
  end.

(** A number interpolated into a template literal. *)
Definition Z_to_string (z : Z) : string := NilZero.string_of_int (Z.to_int z).

(** [occurs c s]: the character [c] appears in [s]. *)
Fixpoint occurs (c : ascii) (s : string) : bool :=
  match s with
  | "" => false
  | String a s' => (a =? c)%char || occurs c s'
  end.

(** Number of times [c] appears in [s]. *)
Fixpoint count_char (c : ascii) (s : string) : nat :=
  match s with
  | "" => 0
  | String a s' => (if (a =? c)%char then 1 else 0) + count_char c s'
  end.

(** [s.replace(/c/g, r)] for a one-character pattern [c] and a replacement [r]
    that holds no dollar sign: every occurrence is replaced, scanning left to
    right, and the replacement text is not scanned again. *)
Fixpoint replaceAll (c : ascii) (r : string) (s : string) : string :=
  match s with
  | "" => ""
  | String a s' =>
      if (a =? c)%char then r ++ replaceAll c r s'
      else String a (replaceAll c r s')
  end.

(** [drop n s]: [s] without its first [n] characters. *)
Fixpoint drop (n : nat) (s : string) : string :=
  match n, s with
  | O, _ => s
  | S n', String _ s' => drop n' s'
  | S _, "" => ""
  end.

(** [s.startsWith(p)]. *)
Fixpoint starts_with (p s : string) : bool :=
  match p with
  | "" => true
  | String a p' =>
      match s with
      | "" => false
      | String b s' => (a =? b)%char && starts_with p' s'
      end
  end.

(** [contains p s]: [p] occurs in [s] as a substring. *)
Fixpoint contains (p s : string) : bool :=
  starts_with p s ||
  match s with
  | "" => false
  | String _ s' => contains p s'
  end.


(** Where [pat] first occurs in [s]: the text before it and the text after
    it, or [None] when it does not occur ([s.indexOf(pat)]). *)
Fixpoint split_first (pat s : string) : option (string * string) :=
  if starts_with pat s then Some ("", drop (String.length pat) s)
  else
    match s with
    | "" => None
    | String c s' =>
        match split_first pat s' with
        | Some (before, after) => Some (String c before, after)
        | None => None
        end
    end.

(** ECMAScript GetSubstitution for a string pattern (no capture groups): in
    the replacement text a dollar sign followed by a dollar sign stands for
    one dollar sign, a dollar sign followed by an ampersand for the matched
    text, by a backquote for the text before the match, by an apostrophe for
    the text after it; any other character, a dollar sign before a digit
    included, stands for itself. *)
Fixpoint getSubstitution (matched before after tpl : string) : string :=
  match tpl with
  | "" => ""
  | String c r =>
      if (c =? "$")%char then
        match r with
        | "" => String c ""
        | String d r' =>
            if (d =? "$")%char then String "$" (getSubstitution matched before after r')
            else if (d =? "&")%char then matched ++ getSubstitution matched before after r'
            else if (d =? "`")%char then before ++ getSubstitution matched before after r'
            else if (d =? "'")%char then after ++ getSubstitution matched before after r'
            else String c (getSubstitution matched before after r)
        end
      else String c (getSubstitution matched before after r)
  end.

(** [s.replace(pat, rep)] for a string pattern: only the first occurrence is
    replaced, by the expansion of [rep]. *)
Definition replace (pat rep s : string) : string :=
  match split_first pat s with
  | None => s
  | Some (before, after) => before ++ getSubstitution pat before after rep ++ after
  end.

End JsString.
Import JsString.

(** The optional [customData] object of a request. *)
Record CustomData := {
  buttonText : option string;
  messageTemplate : option string
}.

(** ** utils/email-templates.js *)

Module EmailTemplates.

(** [escapeHtml]: five global replacements, the ampersand first. *)
Definition escapeHtml (text : string) : string :=
  replaceAll "'" "&#039;"
    (replaceAll dq_char "&quot;"
       (replaceAll ">" "&gt;"
          (replaceAll "<" "&lt;"
             (replaceAll "&" "&amp;" text)))).

Record Options := {
  customerName : string;
  businessName : string;
  reviewLink : string;
  customData : option CustomData
}.

(** The button label: [customData.buttonText || 'Leave a Review'], a missing
    [customData] defaulting to the empty object. *)
Definition buttonTextOf (o : Options) : string :=
  js_or (match customData o with Some cd => buttonText cd | None => None end)
        "Leave a Review".

(** [generateReviewRequestHtml]; [year] is what [new Date().getFullYear()]
    returns. *)
Definition generateReviewRequestHtml (year : Z) (o : Options) : string :=
  let safeCustomerName := escapeHtml (customerName o) in
  let safeBusinessName := escapeHtml (businessName o) in
  let safeReviewLink := escapeHtml (reviewLink o) in
  let currentYear := Z_to_string year in
  let buttonText := buttonTextOf o in
  String.concat nl
    [
     "";
     "      <!DOCTYPE html>";
     "      <html>";
     "      <head>";
     "        <meta charset=" ++ dq ++ "utf-8" ++ dq ++ ">";
     "        <meta name=" ++ dq ++ "viewport" ++ dq ++ " content=" ++ dq ++ "width=device-width, initial-scale=1.0" ++ dq ++ ">";
     "        <title>We'd Love Your Feedback</title>";
     "        <style>";
     "          @import url('https://fonts.googleapis.com/css2?family=Inter:wght@400;500;600;700&display=swap');";
     "          ";
     "          /* Base styles */";
     "          body {";
     "            font-family: 'Inter', -apple-system, BlinkMacSystemFont, 'Segoe UI', Roboto, Helvetica, Arial, sans-serif;";
     "            line-height: 1.6;";
     "            color: #374151;";
     "            background-color: #f3f4f6;";
     "            margin: 0;";
     "            padding: 0;";
     "          }";
     "          ";
     "          /* Container styles */";
     "          .container {";
     "            max-width: 600px;";
     "            margin: 0 auto;";
     "            padding: 20px;";
     "            background-color: #ffffff;";
     "          }";
     "          ";
     "          /* Header styles */";
     "          .header {";
     "            text-align: center;";
     "            padding: 20px 0;";
     "            border-bottom: 1px solid #e5e7eb;";
     "          }";
     "          ";
     "          .header h2 {";
     "            color: #1e3a8a;";
     "            margin: 0;";
     "            font-size: 24px;";
     "            font-weight: 700;";
     "          }";
     "          ";
     "          /* Content styles */";
     "          .content {";
     "            padding: 24px 20px;";
     "          }";
     "          ";
     "          /* Button styles */";
     "          .button-container {";
     "            text-align: center;";
     "            margin: 30px 0;";
     "          }";
     "          ";
     "          .button {";
     "            display: inline-block;";
     "            padding: 12px 24px;";
     "            background-color: #2563eb;";
     "            color: white !important;";
     "            text-decoration: none;";
     "            border-radius: 6px;";
     "            font-weight: 600;";
     "            font-size: 16px;";
     "            transition: background-color 0.3s;";
     "          }";
     "          ";
     "          .button:hover {";
     "            background-color: #1e40af;";
     "          }";
     "          ";
     "          /* Footer styles */";
     "          .footer {";
     "            text-align: center;";
     "            margin-top: 20px;";
     "            padding-top: 20px;";
     "            border-top: 1px solid #e5e7eb;";
     "            font-size: 12px;";
     "            color: #6b7280;";
     "          }";
     "          ";
     "          /* Responsive adjustments */";
     "          @media only screen and (max-width: 480px) {";
     "            .container {";
     "              padding: 10px;";
     "            }";
     "            ";
     "            .content {";
     "              padding: 20px 15px;";
     "            }";
     "            ";
     "            .button {";
     "              display: block;";
     "              text-align: center;";
     "            }";
     "          }";
     "        </style>";
     "      </head>";
     "      <body>";
     "        <div class=" ++ dq ++ "container" ++ dq ++ ">";
     "          <div class=" ++ dq ++ "header" ++ dq ++ ">";
     "            <h2>We'd Love Your Feedback!</h2>";
     "          </div>";
     "          <div class=" ++ dq ++ "content" ++ dq ++ ">";
     "            <p>Hello " ++ safeCustomerName ++ ",</p>";
     "            <p>Thank you for choosing " ++ safeBusinessName ++ ". We hope you had a great experience!</p>";
     "            <p>We value your feedback and would appreciate it if you could take a moment to share your experience with us.</p>";
     "            ";
     "            <div class=" ++ dq ++ "button-container" ++ dq ++ ">";
     "              <a href=" ++ dq ++ safeReviewLink ++ dq ++ " class=" ++ dq ++ "button" ++ dq ++ ">" ++ buttonText ++ "</a>";
     "            </div>";
     "            ";
     "            <p>Your feedback helps us improve and better serve our customers.</p>";
     "            <p>Thank you for your time!</p>";
     "            <p>";
     "              Best regards,<br>";
     "              The " ++ safeBusinessName ++ " Team";
     "            </p>";
     "          </div>";
     "          <div class=" ++ dq ++ "footer" ++ dq ++ ">";
     "            <p>This email was sent to you because you interacted with " ++ safeBusinessName ++ ".</p>";
     "            <p>© " ++ currentYear ++ " " ++ safeBusinessName ++ ". All rights reserved.</p>";
     "          </div>";
     "        </div>";
     "      </body>";
     "      </html>";
     "    "
    ].

(** *** Vocabulary of the sanitizer's properties *)

(** The entities [escapeHtml] writes. *)
Definition entities : list string :=
  ["&amp;"; "&lt;"; "&gt;"; "&quot;"; "&#039;"].

(** What one call does to a single character. *)
Definition escape_char (a : ascii) : string :=
  if (a =? "&")%char then "&amp;"
  else if (a =? "<")%char then "&lt;"
  else if (a =? ">")%char then "&gt;"
  else if (a =? dq_char)%char then "&quot;"
  else if (a =? "'")%char then "&#039;"
  else String a "".

(** One pass over the input, each character escaped on its own. *)
Fixpoint escape_chars (s : string) : string :=
  match s with
  | "" => ""
  | String a s' => escape_char a ++ escape_chars s'
  end.

(** The five HTML-significant characters. *)
Definition html_significant (a : ascii) : bool :=
  (a =? "&")%char || (a =? "<")%char || (a =? ">")%char
  || (a =? dq_char)%char || (a =? "'")%char.

Fixpoint has_significant (s : string) : bool :=
  match s with
  | "" => false
  | String a s' => html_significant a || has_significant s'
  end.

(** [entity_at s]: one of the five entities is a prefix of [s]. *)
Definition entity_at (s : string) : bool :=
  existsb (fun e => starts_with e s) entities.

(** Where every ampersand of [s] starts one of the five entities. *)
Fixpoint amps_ok (s : string) : bool :=
  match s with
  | "" => true
  | String a s' => (negb (a =? "&")%char || entity_at s) && amps_ok s'
  end.

(** Number of significant characters of [s]. *)
Fixpoint count_significant (s : string) : nat :=
  match s with
  | "" => 0
  | String a s' => (if html_significant a then 1 else 0) + count_significant s'
  end.

End EmailTemplates.
Import EmailTemplates.

(** ** The run-time model: errors, the outside world, effects *)

Module Js.

(** The parsed body of an HTTP response when it is a value with
    properties: the two properties the server reads or hands on.
    [data_message] is the [message] property as [new Error] reads it: its
    string form when it is truthy. *)
Record ResponseData := {
  data_id : option string;
  data_message : option string
}.

(** The parsed body of an HTTP response: [null], [undefined], or a value
    whose properties can be read. *)
Inductive ResponseBody : Type :=
| BodyNull
| BodyUndefined
| BodyData (d : ResponseData).

Record HttpResponse := {
  status : Z;
  data : ResponseBody
}.

(** A thrown value.  An axios error carries [response] when the server
    answered with a status outside 2xx and [request] when the request was
    sent; a plain [Error] carries neither. *)
Record JsError := {
  message : string;
  response : option HttpResponse;
  request : bool
}.

(** [new Error(m)]. *)
Definition new_Error (m : string) : JsError :=
  {| message := m; response := None; request := false |}.

(** How an awaited call ends. *)
Inductive Completion (A : Type) : Type :=
| Normal (a : A)
| Abrupt (e : JsError).
Arguments Normal {A} a.
Arguments Abrupt {A} e.

Inductive Level : Type := LInfo | LWarn | LError.

End Js.
Import Js.

(** The payload posted to the email provider. *)
Module Resend.
Record EmailData := {
  from : string;
  to : string;
  subject : string;
  html : string;
  tags : list (string * string);
  reply_to : option string
}.
End Resend.

(** The message handed to the SMS provider and its acknowledgment. *)
Module Twilio.
Record Message := {
  body : string;
  from : string;
  to : string
}.
Record MessageInstance := {
  sid : string;
  status : string
}.
End Twilio.

Module Runtime.

(** A call that left the process. *)
Inductive NetCall : Type :=
| ResendPost (url authorization : string) (timeout : Z) (payload : Resend.EmailData)
| TwilioCreate (accountSid authToken : string) (msg : Twilio.Message).

(** What the server can observe and change outside itself: the calls made so
    far, the lines handed to the logger, and the calendar year of the clock. *)
Record World := {
  calls : list NetCall;
  logs : list (Level * string);
  clock_year : Z
}.

(** The collaborators outside the repository: the two providers, which may
    answer differently as the history of calls grows, the JSON printer, and
    the factory of the Twilio library, [twilio(accountSid, authToken)],
    which builds a client or refuses the credentials with an error. *)
Record Remote := {
  resend_answer : list NetCall -> Resend.EmailData -> Completion HttpResponse;
  twilio_answer : list NetCall -> Twilio.Message -> Completion Twilio.MessageInstance;
  JSON_stringify : ResponseBody -> string;
  twilio : string -> string -> option JsError
}.

(** An effectful computation: it may log, call a provider, and throw. *)
Definition Eff (A : Type) : Type := World -> Completion A * World.

Definition ret {A} (a : A) : Eff A := fun w => (Normal a, w).

Definition throw {A} (e : JsError) : Eff A := fun w => (Abrupt e, w).

(** [body.message]: reading a property of [null] or of [undefined] throws a
    type error. *)
Definition read_message (body : ResponseBody) : Eff (option string) :=
  match body with
  | BodyData d => ret (data_message d)
  | BodyNull =>
      throw (new_Error "Cannot read properties of null (reading 'message')")
  | BodyUndefined =>
      throw (new_Error "Cannot read properties of undefined (reading 'message')")
  end.

Definition bind {A B} (m : Eff A) (k : A -> Eff B) : Eff B :=
  fun w =>
    match m w with
    | (Normal a, w') => k a w'
    | (Abrupt e, w') => (Abrupt e, w')
    end.

(** [try { m } catch (error) { h error }]. *)
Definition try_catch {A} (m : Eff A) (h : JsError -> Eff A) : Eff A :=
  fun w =>
    match m w with
    | (Normal a, w') => (Normal a, w')
    | (Abrupt e, w') => h e w'
    end.

Definition log (l : Level) (line : string) : Eff unit :=
  fun w => (Normal tt,
            {| calls := calls w; logs := logs w ++ [(l, line)];
               clock_year := clock_year w |}).

Definition getFullYear : Eff Z := fun w => (Normal (clock_year w), w).

(** [axios.post(url, payload, { headers, timeout })]: the call is recorded,
    then the provider answers or the call is rejected. *)
Definition axios_post (R : Remote) (url authorization : string) (timeout : Z)
    (payload : Resend.EmailData) : Eff HttpResponse :=
  fun w =>
    (resend_answer R (calls w) payload,
     {| calls := calls w ++ [ResendPost url authorization timeout payload];
        logs := logs w; clock_year := clock_year w |}).

(** [client.messages.create(msg)] on a client built from the credentials. *)
Definition messages_create (R : Remote) (accountSid authToken : string)
    (msg : Twilio.Message) : Eff Twilio.MessageInstance :=
  fun w =>
    (twilio_answer R (calls w) msg,
     {| calls := calls w ++ [TwilioCreate accountSid authToken msg];
        logs := logs w; clock_year := clock_year w |}).

End Runtime.
Import Runtime.

Declare Scope eff_scope.
Delimit Scope eff_scope with eff.
Notation "x <- m ;; k" := (bind m (fun x => k))
  (at level 61, m at next level, right associativity) : eff_scope.
Notation "m ;;; k" := (bind m (fun _ => k))
  (at level 61, right associativity) : eff_scope.
Local Open Scope eff_scope.

(** The environment variables the services read. *)
Record Env := {
  RESEND_API_KEY : option string;
  EMAIL_FROM_ADDRESS : option string;
  EMAIL_FROM_NAME : option string;
  TWILIO_ACCOUNT_SID : option string;
  TWILIO_AUTH_TOKEN : option string;
  TWILIO_PHONE_NUMBER : option string;
  RENDER_EXTERNAL_URL : option string;
  NODE_ENV : option string
}.

(** ** services/email-service.js *)

Module EmailService.

Record t := {
  apiKey : option string;
  fromEmail : string;
  fromName : string
}.

(** The constructor: defaults for a missing sender address and name. *)
Definition constructor (env : Env) : Eff t :=
  (if negb (truthy (RESEND_API_KEY env))
   then log LError "RESEND_API_KEY is missing. Email functionality will not work."
   else ret tt) ;;;
  (if negb (truthy (EMAIL_FROM_ADDRESS env))
   then log LWarn "EMAIL_FROM_ADDRESS is missing. Using default address."
   else ret tt) ;;;
  (if negb (truthy (EMAIL_FROM_NAME env))
   then log LWarn "EMAIL_FROM_NAME is missing. Using default name."
   else ret tt) ;;;
  ret {| apiKey := RESEND_API_KEY env;
         fromEmail := js_or (EMAIL_FROM_ADDRESS env) "reviews@revboostapp.com";
         fromName := js_or (EMAIL_FROM_NAME env) "RevBoost" |}.

Record ReviewRequest := {
  toEmail : string;
  customerName : string;
  businessName : string;
  reviewLink : string;
  replyTo : option string;
  customData : option CustomData
}.

Section WithRemote.
Context (R : Remote).

(** [sendEmail]: the key check and the provider call share one [try]; the
    handler sorts what was thrown. *)
Definition sendEmail (this : t) (emailData : Resend.EmailData) : Eff ResponseBody :=
  try_catch
    (match apiKey this with
     | Some key =>
         if key =? "" then throw (new_Error "Resend API key is not configured")
         else
           response <- axios_post R "https://api.resend.com/emails"
                         ("Bearer " ++ key) 10000 emailData ;;
           ret (data response)
     | None => throw (new_Error "Resend API key is not configured")
     end)
    (fun error =>
       match response error with
       | Some r =>
           log LError ("Resend API error: " ++ Z_to_string (status r) ++ " - "
                       ++ JSON_stringify R (data r)) ;;;
           m <- read_message (data r) ;;
           throw (new_Error (js_or m "Failed to send email"))
       | None =>
           if request error then
             log LError "No response received from Resend API" ;;;
             throw (new_Error "No response from email service")
           else
             log LError ("Email request setup error: " ++ message error) ;;;
             throw error
       end).

Definition sendReviewRequest (this : t) (o : ReviewRequest) : Eff ResponseBody :=
  try_catch
    (log LInfo ("Sending review request email to " ++ toEmail o) ;;;
     year <- getFullYear ;;
     let htmlContent :=
       generateReviewRequestHtml year
         {| EmailTemplates.customerName := customerName o;
            EmailTemplates.businessName := businessName o;
            EmailTemplates.reviewLink := reviewLink o;
            EmailTemplates.customData := customData o |} in
     let emailData :=
       {| Resend.from := fromName this ++ " <" ++ fromEmail this ++ ">";
          Resend.to := toEmail o;
          Resend.subject := "We'd love to hear your feedback on " ++ businessName o;
          Resend.html := htmlContent;
          Resend.tags := [("type", "review_request"); ("business", businessName o)];
          Resend.reply_to := if truthy (replyTo o) then replyTo o else None |} in
     response <- sendEmail this emailData ;;
     log LInfo ("Email sent successfully to " ++ toEmail o) ;;;
     ret response)
    (fun error =>
       log LError ("Failed to send review request email: " ++ message error) ;;;
       throw error).

End WithRemote.

End EmailService.

(** ** services/sms-service.js *)

Module SmsService.

Record t := {
  accountSid : option string;
  authToken : option string;
  fromNumber : option string;
  (** the Twilio client, built only when both credentials are present *)
  client : option (string * string)
}.

(** [twilio(accountSid, authToken)], called only with both credentials:
    the client, unless the library refuses them. *)
Definition new_client (R : Remote) (accountSid authToken : option string)
  : Eff (option (string * string)) :=
  match accountSid, authToken with
  | Some s, Some a =>
      if truthy accountSid && truthy authToken then
        match twilio R s a with
        | Some refused => throw refused
        | None => ret (Some (s, a))
        end
      else ret None
  | _, _ => ret None
  end.

(** The constructor: the two checks log, then the client is built when both
    credentials are there. *)
Definition constructor (R : Remote) (env : Env) : Eff t :=
  let both := truthy (TWILIO_ACCOUNT_SID env) && truthy (TWILIO_AUTH_TOKEN env) in
  (if negb both
   then log LError "TWILIO_ACCOUNT_SID or TWILIO_AUTH_TOKEN is missing. SMS functionality will not work."
   else ret tt) ;;;
  (if negb (truthy (TWILIO_PHONE_NUMBER env))
   then log LWarn "TWILIO_PHONE_NUMBER is missing. SMS functionality will not work."
   else ret tt) ;;;
  client <- new_client R (TWILIO_ACCOUNT_SID env) (TWILIO_AUTH_TOKEN env) ;;
  ret {| accountSid := TWILIO_ACCOUNT_SID env;
         authToken := TWILIO_AUTH_TOKEN env;
         fromNumber := TWILIO_PHONE_NUMBER env;
         client := client |}.

Record MessageOptions := {
  customerName : string;
  businessName : string;
  reviewLink : string;
  customData : option CustomData
}.

(** [generateReviewRequestMessage]: the default text, or the caller's
    template after three single replacements. *)
Definition generateReviewRequestMessage (o : MessageOptions) : string :=
  let message :=
    "Hi " ++ customerName o ++ ", thank you for choosing " ++ businessName o
    ++ "! We'd love to hear your feedback. Please share your experience here: "
    ++ reviewLink o in
  match customData o with
  | Some cd =>
      match messageTemplate cd with
      | Some template =>
          if template =? "" then message
          else
            replace "{{reviewLink}}" (reviewLink o)
              (replace "{{businessName}}" (businessName o)
                 (replace "{{customerName}}" (customerName o) template))
      | None => message
      end
  | None => message
  end.

Record ReviewRequest := {
  phoneNumber : string;
  options : MessageOptions
}.

Section WithRemote.
Context (R : Remote).

(** The configuration check shared by both send operations: the client and
    the sender number, when both are there. *)
Definition configured (this : t) : option (string * string * string) :=
  match client this, fromNumber this with
  | Some (s, a), Some n => if n =? "" then None else Some (s, a, n)
  | _, _ => None
  end.

Definition sendReviewRequest (this : t) (o : ReviewRequest)
  : Eff Twilio.MessageInstance :=
  try_catch
    (log LInfo ("Sending review request SMS to " ++ phoneNumber o) ;;;
     match configured this with
     | None => throw (new_Error "Twilio is not fully configured")
     | Some (s, a, n) =>
         let messageBody := generateReviewRequestMessage (options o) in
         message <- messages_create R s a
                      {| Twilio.body := messageBody;
                         Twilio.from := n;
                         Twilio.to := phoneNumber o |} ;;
         log LInfo ("SMS sent successfully to " ++ phoneNumber o ++ ", SID: "
                    ++ Twilio.sid message) ;;;
         ret {| Twilio.sid := Twilio.sid message;
                Twilio.status := Twilio.status message |}
     end)
    (fun error =>
       log LError ("Failed to send review request SMS: " ++ message error) ;;;
       throw error).

Definition sendTestSms (this : t) (phoneNumber : string)
  : Eff Twilio.MessageInstance :=
  try_catch
    (log LInfo ("Sending test SMS to " ++ phoneNumber) ;;;
     match configured this with
     | None => throw (new_Error "Twilio is not fully configured")
     | Some (s, a, n) =>
         message <- messages_create R s a
                      {| Twilio.body := "This is a test message from RevBoost. If you received this, SMS sending is working properly!";
                         Twilio.from := n;
                         Twilio.to := phoneNumber |} ;;
         log LInfo ("Test SMS sent successfully to " ++ phoneNumber ++ ", SID: "
                    ++ Twilio.sid message) ;;;
         ret {| Twilio.sid := Twilio.sid message;
                Twilio.status := Twilio.status message |}
     end)
    (fun error =>
       log LError ("Failed to send test SMS: " ++ message error) ;;;
       throw error).

End WithRemote.

(** *** Vocabulary of the template properties *)














End SmsService.

(** ** Request validation and responses *)

Module Express.

(** The string validators of the validation library, outside the
    repository. *)
Record Validators := {
  isEmail : string -> bool;
  isURL : string -> bool;
  isMobilePhone : string -> bool
}.

(** One entry of [errors.array()]. *)
Record FieldError := {
  path : string;
  msg : string;
  value : option string
}.

(** A field of the request body, absent or a string, in its string form. *)
Definition toString (v : option string) : string :=
  match v with
  | Some s => s
  | None => ""
  end.

(** [body(path).<test>().withMessage(msg)]: the test runs on the field's
    string form. *)
Definition check (path : string) (v : option string) (test : string -> bool)
    (msg : string) : list FieldError :=
  if test (toString v) then []
  else [{| path := path; msg := msg; value := v |}].

(** [body(path).optional().<test>().withMessage(msg)]: an absent field is
    not tested. *)
Definition check_optional (path : string) (v : option string)
    (test : string -> bool) (msg : string) : list FieldError :=
  match v with
  | None => []
  | Some _ => check path v test msg
  end.

Definition notEmpty (s : string) : bool := negb (s =? "").

(** What a handler sends back. *)
Inductive Json : Type :=
| Errors (errors : list FieldError)
| EmailSent (message : string) (result : ResponseBody)
| SmsSent (message : string) (result : Twilio.MessageInstance).

(** How a handler ends: a response with a status, or the error handed to
    [next]. *)
Inductive Outcome : Type :=
| Responded (status : Z) (success : bool) (body : Json)
| Next (error : JsError).

End Express.
Import Express.

(** ** routes/email-routes.js *)

Module EmailRoutes.

(** The body of a request whose fields, when present, are JSON strings and
    whose [customData], when present, is an object with string properties. *)
Record Body := {
  toEmail : option string;
  customerName : option string;
  businessName : option string;
  reviewLink : option string;
  replyTo : option string;
  customData : option CustomData
}.

Section WithCollaborators.
Context (V : Validators) (R : Remote).

(** The validation chain of POST /api/email/review-request. *)
Definition review_request_errors (b : Body) : list FieldError :=
  check "toEmail" (toEmail b) (isEmail V) "Valid email address required"
  ++ check "customerName" (customerName b) notEmpty "Customer name is required"
  ++ check "businessName" (businessName b) notEmpty "Business name is required"
  ++ check "reviewLink" (reviewLink b) (isURL V) "Valid review link URL is required"
  ++ check_optional "replyTo" (replyTo b) (isEmail V)
       "Reply-to must be a valid email if provided".

(** The handler of POST /api/email/review-request.  Past the validation the
    tested fields are handed to the service in their string form. *)
Definition review_request (emailService : EmailService.t) (b : Body)
  : Eff Outcome :=
  try_catch
    (let errors := review_request_errors b in
     match errors with
     | _ :: _ => ret (Responded 400 false (Errors errors))
     | [] =>
         result <- EmailService.sendReviewRequest R emailService
                     {| EmailService.toEmail := toString (toEmail b);
                        EmailService.customerName := toString (customerName b);
                        EmailService.businessName := toString (businessName b);
                        EmailService.reviewLink := toString (reviewLink b);
                        EmailService.replyTo := replyTo b;
                        EmailService.customData := customData b |} ;;
         ret (Responded 200 true (EmailSent "Email sent successfully" result))
     end)
    (fun error => ret (Next error)).

End WithCollaborators.

End EmailRoutes.

(** ** routes/sms-routes.js *)

Module SmsRoutes.

(** The body of a request whose fields, when present, are JSON strings and
    whose [customData], when present, is an object with string properties. *)
Record Body := {
  phoneNumber : option string;
  customerName : option string;
  businessName : option string;
  reviewLink : option string;
  customData : option CustomData
}.

Section WithCollaborators.
Context (V : Validators) (R : Remote).

(** The validation chain of POST /api/sms/review-request. *)
Definition review_request_errors (b : Body) : list FieldError :=
  check "phoneNumber" (phoneNumber b) (isMobilePhone V) "Valid phone number required"
  ++ check "customerName" (customerName b) notEmpty "Customer name is required"
  ++ check "businessName" (businessName b) notEmpty "Business name is required"
  ++ check "reviewLink" (reviewLink b) (isURL V) "Valid review link URL is required".

(** The handler of POST /api/sms/review-request. *)
Definition review_request (smsService : SmsService.t) (b : Body)
  : Eff Outcome :=
  try_catch
    (let errors := review_request_errors b in
     match errors with
     | _ :: _ => ret (Responded 400 false (Errors errors))
     | [] =>
         result <- SmsService.sendReviewRequest R smsService
                     {| SmsService.phoneNumber := toString (phoneNumber b);
                        SmsService.options :=
                          {| SmsService.customerName := toString (customerName b);
                             SmsService.businessName := toString (businessName b);
                             SmsService.reviewLink := toString (reviewLink b);
                             SmsService.customData := customData b |} |} ;;
         ret (Responded 200 true (SmsSent "SMS sent successfully" result))
     end)
    (fun error => ret (Next error)).

End WithCollaborators.

End SmsRoutes.

(** ** server-keepalive.js *)

Module ServerKeepAlive.

Local Open Scope Z_scope.

Record Stats := {
  totalPings : Z;
  successfulPings : Z;
  failedPings : Z;
  lastPingTime : option Z;
  startTime : Z
}.

(** What a timer runs when it fires. *)
Inductive Callback : Type := PerformSelfPing.

(** The timers registered with the process: cron schedules and one-shot
    timeouts. *)
Record Timers := {
  cron_jobs : list (string * Callback);
  timeouts : list (Z * Callback)
}.

Record t := {
  serverUrl : string;
  enabled : bool;
  stats : Stats
}.

(** The constructor; [now] is the clock at construction. *)
Definition constructor (env : Env) (now : Z) : t :=
  {| serverUrl := js_or (RENDER_EXTERNAL_URL env) "http://localhost:3000";
     enabled :=
       match NODE_ENV env with
       | Some m => (m =? "production")%string
       | None => false
       end;
     stats := {| totalPings := 0; successfulPings := 0; failedPings := 0;
                 lastPingTime := None; startTime := now |} |}.

(** [start]: nothing outside production; otherwise one more cron schedule and
    one more five-second timeout. *)
Definition start (this : t) (timers : Timers) : Timers :=
  if negb (enabled this) then timers
  else
    {| cron_jobs := cron_jobs timers ++ [("*/14 * * * *", PerformSelfPing)];
       timeouts := timeouts timers ++ [(5000, PerformSelfPing)] |}.

(** How the self-check request ends: axios resolves with the status of a 2xx
    answer and rejects otherwise (other status, timeout, network failure). *)
Inductive PingResult : Type :=
| Resolved (status : Z)
| Rejected (error : JsError).

(** [performSelfPing]; [now] is the clock when it starts and [r] how the
    request to the health endpoint ends. *)
Definition performSelfPing (this : t) (now : Z) (r : PingResult) : t :=
  let s := stats this in
  let s1 := {| totalPings := totalPings s + 1;
               successfulPings := successfulPings s;
               failedPings := failedPings s;
               lastPingTime := Some now;
               startTime := startTime s |} in
  let s2 :=
    match r with
    | Resolved status =>
        if (status =? 200) then
          {| totalPings := totalPings s1;
             successfulPings := successfulPings s1 + 1;
             failedPings := failedPings s1;
             lastPingTime := lastPingTime s1;
             startTime := startTime s1 |}
        else s1
    | Rejected _ =>
        {| totalPings := totalPings s1;
           successfulPings := successfulPings s1;
           failedPings := failedPings s1 + 1;
           lastPingTime := lastPingTime s1;
           startTime := startTime s1 |}
    end in
  {| serverUrl := serverUrl this; enabled := enabled this; stats := s2 |}.

Definition run (cb : Callback) (this : t) (now : Z) (r : PingResult) : t :=
  match cb with
  | PerformSelfPing => performSelfPing this now r
  end.

(** One firing of the cron minute: every registered schedule runs its
    callback; [results] gives how each self-check ends, in order, a missing
    entry standing for a rejected request. *)
Fixpoint fire (jobs : list (string * Callback)) (now : Z)
    (results : list PingResult) (this : t) : t :=
  match jobs with
  | [] => this
  | (_, cb) :: jobs' =>
      match results with
      | r :: results' => fire jobs' now results' (run cb this now r)
      | [] => fire jobs' now [] (run cb this now (Rejected (new_Error "")))
      end
  end.

(** A sequence of ticks, each with its clock and the result of its
    self-check. *)
Fixpoint ticks (l : list (Z * PingResult)) (this : t) : t :=
  match l with
  | [] => this
  | (now, r) :: l' => ticks l' (performSelfPing this now r)
  end.

(** [start] called [n] times. *)
Fixpoint starts (n : nat) (this : t) (timers : Timers) : Timers :=
  match n with
  | O => timers
  | S n' => starts n' this (start this timers)
  end.

Definition is_rejected (r : PingResult) : bool :=
  match r with
  | Rejected _ => true
  | Resolved _ => false
  end.

Definition is_ok_200 (r : PingResult) : bool :=
  match r with
  | Resolved status => (status =? 200)
  | Rejected _ => false
  end.

Definition count (f : PingResult -> bool) (l : list (Z * PingResult)) : Z :=
  Z.of_nat (List.length (filter (fun p => f (snd p)) l)).

Definition no_timers : Timers := {| cron_jobs := []; timeouts := [] |}.

End ServerKeepAlive.

(** ** Test doubles

    Stand-ins for the collaborators outside the repository, used to run the
    model on concrete requests. *)

Module Doubles.

(** A provider that never answers: every call ends as a timeout. *)
Definition timeout_error : JsError :=
  {| message := "timeout of 10000ms exceeded"; response := None; request := true |}.

Definition unreachable : Remote :=
  {| resend_answer := fun _ _ => Abrupt timeout_error;
     twilio_answer := fun _ _ => Abrupt timeout_error;
     JSON_stringify := fun _ => "{}";
     twilio := fun _ _ => None |}.

(** A provider that rejects every email with status 500 and the JSON body
    [null]. *)
Definition null_body_error : JsError :=
  {| message := "Request failed with status code 500";
     response := Some {| status := 500; data := BodyNull |};
     request := true |}.

Definition null_body : Remote :=
  {| resend_answer := fun _ _ => Abrupt null_body_error;
     twilio_answer := fun _ _ => Abrupt timeout_error;
     JSON_stringify := fun _ => "null";
     twilio := fun _ _ => None |}.

(** A provider that rejects every email with status 422 and an empty
    object as body. *)
Definition empty_body_error : JsError :=
  {| message := "Request failed with status code 422";
     response := Some {| status := 422;
                         data := BodyData {| data_id := None;
                                             data_message := None |} |};
     request := true |}.

Definition empty_body : Remote :=
  {| resend_answer := fun _ _ => Abrupt empty_body_error;
     twilio_answer := fun _ _ => Abrupt timeout_error;
     JSON_stringify := fun _ => "{}";
     twilio := fun _ _ => None |}.

(** Simple validators: an address holds an at sign, a link starts with http,
    a phone number starts with a plus sign. *)
Definition validators : Validators :=
  {| isEmail := contains "@";
     isURL := starts_with "http";
     isMobilePhone := starts_with "+" |}.

Definition world0 : World := {| calls := []; logs := []; clock_year := 2025 |}.

Definition email_with_key : EmailService.t :=
  {| EmailService.apiKey := Some "re_123";
     EmailService.fromEmail := "reviews@revboostapp.com";
     EmailService.fromName := "RevBoost" |}.

Definition email_without_key : EmailService.t :=
  {| EmailService.apiKey := None;
     EmailService.fromEmail := "reviews@revboostapp.com";
     EmailService.fromName := "RevBoost" |}.

Definition sms_without_number : SmsService.t :=
  {| SmsService.accountSid := Some "AC1";
     SmsService.authToken := Some "tok";
     SmsService.fromNumber := None;
     SmsService.client := Some ("AC1", "tok") |}.

Definition email_data : Resend.EmailData :=
  {| Resend.from := "RevBoost <reviews@revboostapp.com>";
     Resend.to := "a@b.com";
     Resend.subject := "RevBoost Email Test";
     Resend.html := "<p>test</p>";
     Resend.tags := [("type", "test")];
     Resend.reply_to := None |}.

(** A request whose recipient is not an address. *)
Definition bad_email_body : EmailRoutes.Body :=
  {| EmailRoutes.toEmail := Some "not-an-email";
     EmailRoutes.customerName := Some "Jane";
     EmailRoutes.businessName := Some "Acme";
     EmailRoutes.reviewLink := Some "https://g.co/r";
     EmailRoutes.replyTo := None;
     EmailRoutes.customData := None |}.

(** A request without customer name. *)
Definition bad_sms_body : SmsRoutes.Body :=
  {| SmsRoutes.phoneNumber := Some "+15550100";
     SmsRoutes.customerName := None;
     SmsRoutes.businessName := Some "Acme";
     SmsRoutes.reviewLink := Some "https://g.co/r";
     SmsRoutes.customData := None |}.

Definition production : Env :=
  {| RESEND_API_KEY := Some "re_123";
     EMAIL_FROM_ADDRESS := None;
     EMAIL_FROM_NAME := None;
     TWILIO_ACCOUNT_SID := None;
     TWILIO_AUTH_TOKEN := None;
     TWILIO_PHONE_NUMBER := None;
     RENDER_EXTERNAL_URL := Some "https://example.onrender.com";
     NODE_ENV := Some "production" |}.

End Doubles.

(** * The rest of the server *)

(** ** utils/email-templates.js: the test email *)

Module TestEmailTemplate.

(** [generateTestEmailHtml]; [sent] is what [new Date().toLocaleString()]
    returns and [year] what [new Date().getFullYear()] returns. *)
Definition generateTestEmailHtml (sent : string) (year : Z) : string :=
  let currentYear := Z_to_string year in
  String.concat nl
    [
     "";
     "      <!DOCTYPE html>";
     "      <html>";
     "      <head>";
     "        <meta charset=" ++ dq ++ "utf-8" ++ dq ++ ">";
     "        <meta name=" ++ dq ++ "viewport" ++ dq ++ " content=" ++ dq ++ "width=device-width, initial-scale=1.0" ++ dq ++ ">";
     "        <title>RevBoost Email Test</title>";
     "        <style>";
     "          body {";
     "            font-family: Arial, sans-serif;";
     "            line-height: 1.6;";
     "            color: #333;";
     "            max-width: 600px;";
     "            margin: 0 auto;";
     "            padding: 20px;";
     "          }";
     "          .container {";
     "            background-color: #f9f9f9;";
     "            border: 1px solid #ddd;";
     "            border-radius: 5px;";
     "            padding: 20px;";
     "          }";
     "          .header {";
     "            text-align: center;";
     "            padding-bottom: 20px;";
     "            border-bottom: 1px solid #eee;";
     "          }";
     "          .content {";
     "            padding: 20px 0;";
     "          }";
     "          .footer {";
     "            font-size: 12px;";
     "            color: #666;";
     "            border-top: 1px solid #eee;";
     "            padding-top: 20px;";
     "            text-align: center;";
     "          }";
     "        </style>";
     "      </head>";
     "      <body>";
     "        <div class=" ++ dq ++ "container" ++ dq ++ ">";
     "          <div class=" ++ dq ++ "header" ++ dq ++ ">";
     "            <h2>RevBoost Email Test</h2>";
     "          </div>";
     "          <div class=" ++ dq ++ "content" ++ dq ++ ">";
     "            <p>This is a test email from RevBoost.</p>";
     "            <p>If you received this email, it means that email sending is working properly!</p>";
     "            <p>You can now use the email service to send review requests to your customers.</p>";
     "            <hr>";
     "            <p>Details:</p>";
     "            <ul>";
     "              <li>Sent: " ++ sent ++ "</li>";
     "              <li>Email Service: Resend</li>";
     "            </ul>";
     "          </div>";
     "          <div class=" ++ dq ++ "footer" ++ dq ++ ">";
     "            <p>© " ++ currentYear ++ " RevBoost. This is an automated test message.</p>";
     "          </div>";
     "        </div>";
     "      </body>";
     "      </html>";
     "    "
    ].

End TestEmailTemplate.

(** ** services/email-service.js: the test email *)

Module TestEmail.

Section WithRemote.
Context (R : Remote).

(** [sendTestEmail]; [sent] is the local date and time of the clock, as the
    template prints it. *)
Definition sendTestEmail (this : EmailService.t) (sent : string)
    (toEmail : string) : Eff ResponseBody :=
  try_catch
    (log LInfo ("Sending test email to " ++ toEmail) ;;;
     year <- getFullYear ;;
     let htmlContent := TestEmailTemplate.generateTestEmailHtml sent year in
     let emailData :=
       {| Resend.from :=
            EmailService.fromName this ++ " <" ++ EmailService.fromEmail this ++ ">";
          Resend.to := toEmail;
          Resend.subject := "RevBoost Email Test";
          Resend.html := htmlContent;
          Resend.tags := [("type", "test")];
          Resend.reply_to := None |} in
     response <- EmailService.sendEmail R this emailData ;;
     log LInfo ("Test email sent successfully to " ++ toEmail) ;;;
     ret response)
    (fun error =>
       log LError ("Failed to send test email: " ++ message error) ;;;
       throw error).

End WithRemote.

End TestEmail.

(** ** routes/email-routes.js and routes/sms-routes.js: the test routes *)

Module TestRoutes.

Section WithCollaborators.
Context (V : Validators) (R : Remote).

(** The validation chain of POST /api/email/test. *)
Definition email_test_errors (toEmail : option string) : list FieldError :=
  check "toEmail" toEmail (isEmail V) "Valid email address required".

(** The handler of POST /api/email/test. *)
Definition email_test (emailService : EmailService.t) (sent : string)
    (toEmail : option string) : Eff Outcome :=
  try_catch
    (let errors := email_test_errors toEmail in
     match errors with
     | _ :: _ => ret (Responded 400 false (Errors errors))
     | [] =>
         result <- TestEmail.sendTestEmail R emailService sent (toString toEmail) ;;
         ret (Responded 200 true (EmailSent "Test email sent successfully" result))
     end)
    (fun error => ret (Next error)).

(** The validation chain of POST /api/sms/test. *)
Definition sms_test_errors (phoneNumber : option string) : list FieldError :=
  check "phoneNumber" phoneNumber (isMobilePhone V) "Valid phone number required".

(** The handler of POST /api/sms/test. *)
Definition sms_test (smsService : SmsService.t) (phoneNumber : option string)
  : Eff Outcome :=
  try_catch
    (let errors := sms_test_errors phoneNumber in
     match errors with
     | _ :: _ => ret (Responded 400 false (Errors errors))
     | [] =>
         result <- SmsService.sendTestSms R smsService (toString phoneNumber) ;;
         ret (Responded 200 true (SmsSent "Test SMS sent successfully" result))
     end)
    (fun error => ret (Next error)).

End WithCollaborators.

End TestRoutes.

(** ** services/feedback-service.js *)

Module FeedbackService.

(** The rating as the code uses it, a number or a numeric string: [text] is
    its string form and [at_least i] the comparison [i <= rating]. *)
Record Rating := {
  text : string;
  at_least : Z -> bool
}.

(** A whole number as a rating. *)
Definition rating_of_Z (z : Z) : Rating :=
  {| text := Z_to_string z; at_least := fun i => (i <=? z)%Z |}.

(** An absent rating is [undefined]: it prints as such, compares false with
    every number, and has no [toString] method. *)
Definition rating_text (r : option Rating) : string :=
  match r with
  | Some r => text r
  | None => "undefined"
  end.

Definition rating_at_least (r : option Rating) (i : Z) : bool :=
  match r with
  | Some r => at_least r i
  | None => false
  end.

Definition rating_toString (r : option Rating) : Eff string :=
  match r with
  | Some r => ret (text r)
  | None => throw (new_Error "Cannot read properties of undefined (reading 'toString')")
  end.

Definition filled_star : string := "★".
Definition empty_star : string := "☆".

(** The loop over [i] from 1 to 5 that appends one star at a time. *)
Definition starsHtml (rating : option Rating) : string :=
  fold_left
    (fun starsHtml i =>
       starsHtml ++ (if rating_at_least rating i then filled_star else empty_star))
    [1; 2; 3; 4; 5]%Z "".

Record HtmlOptions := {
  html_businessName : string;
  html_rating : option Rating;
  html_feedback : string;
  html_customerName : string
}.

(** [generateFeedbackEmailHtml]; [year] is what [new Date().getFullYear()]
    returns. *)
Definition generateFeedbackEmailHtml (year : Z) (o : HtmlOptions) : string :=
  let safeBusinessName := escapeHtml (html_businessName o) in
  let safeFeedback := escapeHtml (html_feedback o) in
  let safeCustomerName := escapeHtml (html_customerName o) in
  let currentYear := Z_to_string year in
  let starsHtml := starsHtml (html_rating o) in
  let ratingText := rating_text (html_rating o) in
  String.concat nl
    [
     "";
     "      <!DOCTYPE html>";
     "      <html>";
     "      <head>";
     "        <meta charset=" ++ dq ++ "utf-8" ++ dq ++ ">";
     "        <meta name=" ++ dq ++ "viewport" ++ dq ++ " content=" ++ dq ++ "width=device-width, initial-scale=1.0" ++ dq ++ ">";
     "        <title>Customer Feedback Alert</title>";
     "        <style>";
     "          @import url('https://fonts.googleapis.com/css2?family=Inter:wght@400;500;600;700&display=swap');";
     "          ";
     "          /* Base styles */";
     "          body {";
     "            font-family: 'Inter', -apple-system, BlinkMacSystemFont, 'Segoe UI', Roboto, Helvetica, Arial, sans-serif;";
     "            line-height: 1.6;";
     "            color: #374151;";
     "            background-color: #f3f4f6;";
     "            margin: 0;";
     "            padding: 0;";
     "          }";
     "          ";
     "          /* Container styles */";
     "          .container {";
     "            max-width: 600px;";
     "            margin: 0 auto;";
     "            padding: 20px;";
     "            background-color: #ffffff;";
     "          }";
     "          ";
     "          /* Header styles */";
     "          .header {";
     "            text-align: center;";
     "            padding: 20px 0;";
     "            border-bottom: 1px solid #e5e7eb;";
     "          }";
     "          ";
     "          .header h2 {";
     "            color: #991b1b;";
     "            margin: 0;";
     "            font-size: 24px;";
     "            font-weight: 700;";
     "          }";
     "          ";
     "          /* Content styles */";
     "          .content {";
     "            padding: 24px 20px;";
     "          }";
     "          ";
     "          .rating {";
     "            font-size: 24px;";
     "            color: #f59e0b;";
     "            margin: 15px 0;";
     "          }";
     "          ";
     "          .feedback-box {";
     "            background-color: #f9fafb;";
     "            border: 1px solid #e5e7eb;";
     "            border-radius: 6px;";
     "            padding: 15px;";
     "            margin: 20px 0;";
     "          }";
     "          ";
     "          /* Footer styles */";
     "          .footer {";
     "            text-align: center;";
     "            margin-top: 20px;";
     "            padding-top: 20px;";
     "            border-top: 1px solid #e5e7eb;";
     "            font-size: 12px;";
     "            color: #6b7280;";
     "          }";
     "          ";
     "          /* Responsive adjustments */";
     "          @media only screen and (max-width: 480px) {";
     "            .container {";
     "              padding: 10px;";
     "            }";
     "            ";
     "            .content {";
     "              padding: 20px 15px;";
     "            }";
     "          }";
     "        </style>";
     "      </head>";
     "      <body>";
     "        <div class=" ++ dq ++ "container" ++ dq ++ ">";
     "          <div class=" ++ dq ++ "header" ++ dq ++ ">";
     "            <h2>Customer Feedback Alert</h2>";
     "          </div>";
     "          <div class=" ++ dq ++ "content" ++ dq ++ ">";
     "            <p>Hello " ++ safeBusinessName ++ " Team,</p>";
     "            <p>A customer has left feedback that was <strong>not published publicly</strong>. This feedback has been blocked from appearing on review sites.</p>";
     "            ";
     "            <p><strong>Customer:</strong> " ++ safeCustomerName ++ "</p>";
     "            <div class=" ++ dq ++ "rating" ++ dq ++ ">";
     "              <strong>Rating:</strong> " ++ starsHtml ++ " (" ++ ratingText ++ "/5)";
     "            </div>";
     "            ";
     "            <p><strong>Customer Feedback:</strong></p>";
     "            <div class=" ++ dq ++ "feedback-box" ++ dq ++ ">";
     "              " ++ safeFeedback;
     "            </div>";
     "            ";
     "            <p>This feedback was captured by RevBoost to protect your online reputation. We recommend addressing this feedback directly with the customer.</p>";
     "            ";
     "            <p>";
     "              Best regards,<br>";
     "              RevBoost Team";
     "            </p>";
     "          </div>";
     "          <div class=" ++ dq ++ "footer" ++ dq ++ ">";
     "            <p>This is an automated notification from RevBoost.</p>";
     "            <p>© " ++ currentYear ++ " RevBoost. All rights reserved.</p>";
     "          </div>";
     "        </div>";
     "      </body>";
     "      </html>";
     "    "
    ].

Record Notification := {
  businessId : string;
  toEmail : string;
  businessName : string;
  rating : option Rating;
  feedback : string;
  customerName : string
}.

Section WithRemote.
Context (R : Remote).

(** [sendFeedbackNotification], on the email service of the process. *)
Definition sendFeedbackNotification (emailService : EmailService.t)
    (o : Notification) : Eff ResponseBody :=
  try_catch
    (log LInfo ("Sending feedback notification to " ++ toEmail o
                ++ " for business " ++ businessId o) ;;;
     let subject :=
       "⚠️ Negative Review Blocked - Customer Feedback ("
       ++ rating_text (rating o) ++ "/5)" in
     year <- getFullYear ;;
     let htmlContent :=
       generateFeedbackEmailHtml year
         {| html_businessName := businessName o;
            html_rating := rating o;
            html_feedback := feedback o;
            html_customerName := customerName o |} in
     ratingString <- rating_toString (rating o) ;;
     let emailData :=
       {| Resend.from :=
            EmailService.fromName emailService ++ " <"
            ++ EmailService.fromEmail emailService ++ ">";
          Resend.to := toEmail o;
          Resend.subject := subject;
          Resend.html := htmlContent;
          Resend.tags := [("type", "feedback_notification");
                          ("business_id", businessId o);
                          ("rating", ratingString)];
          Resend.reply_to := None |} in
     response <- EmailService.sendEmail R emailService emailData ;;
     log LInfo ("Feedback notification sent successfully to " ++ toEmail o) ;;;
     ret response)
    (fun error =>
       log LError ("Failed to send feedback notification: " ++ message error) ;;;
       throw error).

End WithRemote.

End FeedbackService.

(** ** routes/email-routes.js: the feedback notification route *)

Module FeedbackRoutes.

Record Body := {
  businessId : option string;
  toEmail : option string;
  businessName : option string;
  rating : option FeedbackService.Rating;
  feedback : option string;
  customerName : option string
}.

(** What the handler sends back. *)
Inductive Response : Type :=
| BadRequest (status : Z) (errors : list FieldError)
| Sent (status : Z) (message : string) (data : ResponseBody)
| Failed (status : Z) (message error : string).

(** The file declares no [logger]: evaluating [logger.error(...)] throws a
    ReferenceError before the line is built. *)
Definition logger_error (line : string) : Eff unit :=
  throw (new_Error "logger is not defined").

Section WithCollaborators.
(** [isRating] is the float test of the validation library with bounds 1
    and 5. *)
Context (V : Validators) (isRating : string -> bool) (R : Remote).

(** The validation chain; the customer's name is optional and not tested. *)
Definition feedback_notification_errors (b : Body) : list FieldError :=
  check "businessId" (businessId b) notEmpty "Business ID is required"
  ++ check "toEmail" (toEmail b) (isEmail V) "Valid email address is required"
  ++ check "businessName" (businessName b) notEmpty "Business name is required"
  ++ check "rating" (option_map FeedbackService.text (rating b)) isRating
       "Rating must be between 1 and 5"
  ++ check "feedback" (feedback b) notEmpty "Feedback content is required".

(** The handler of POST /api/email/feedback-notification: the validation
    stands before the [try], and the handler has no [next]. *)
Definition feedback_notification (emailService : EmailService.t) (b : Body)
  : Eff Response :=
  let errors := feedback_notification_errors b in
  match errors with
  | _ :: _ => ret (BadRequest 400 errors)
  | [] =>
      try_catch
        (result <- FeedbackService.sendFeedbackNotification R emailService
                     {| FeedbackService.businessId := toString (businessId b);
                        FeedbackService.toEmail := toString (toEmail b);
                        FeedbackService.businessName := toString (businessName b);
                        FeedbackService.rating := rating b;
                        FeedbackService.feedback := toString (feedback b);
                        FeedbackService.customerName :=
                          js_or (customerName b) "Anonymous Customer" |} ;;
         ret (Sent 200 "Feedback notification sent successfully" result))
        (fun error =>
           logger_error ("Error sending feedback notification: " ++ message error) ;;;
           ret (Failed 500 "Failed to send feedback notification" (message error)))
  end.

End WithCollaborators.

End FeedbackRoutes.

(** ** middleware/error-handler.js *)

Module ErrorHandler.

(** The body of the error response. *)
Record ErrorBody := {
  body_message : string;
  body_status : Z;
  body_stack : option string
}.

(** [err.statusCode || 500]: a missing status code and the number zero give
    500. *)
Definition statusCodeOf (statusCode : option Z) : Z :=
  match statusCode with
  | Some c => if (c =? 0)%Z then 500%Z else c
  | None => 500%Z
  end.

Section WithResponse.
(** The range error with which the response object refuses a status code
    outside 100 to 999 when the response is sent. *)
Context (invalid_status : Z -> JsError).

(** [res.status(statusCode).json(body)] on a response that was not sent
    yet: the answer, a status and a body. *)
Definition status_json (statusCode : Z) (body : ErrorBody)
  : Eff (Z * ErrorBody) :=
  if ((100 <=? statusCode) && (statusCode <=? 999))%Z
  then ret (statusCode, body)
  else throw (invalid_status statusCode).

(** The handler; [statusCode], absent or a whole number, and [stack] are the
    two properties of the error it reads besides the message, and [method]
    and [originalUrl] come from the request. *)
Definition errorHandler (env : Env) (method originalUrl : string)
    (err : JsError) (statusCode : option Z) (stack : option string)
  : Eff (Z * ErrorBody) :=
  let statusCode := statusCodeOf statusCode in
  let logMessage := method ++ " " ++ originalUrl ++ " - " ++ message err in
  (if (500 <=? statusCode)%Z
   then log LError (logMessage ++ nl
                    ++ match stack with Some s => s | None => "undefined" end)
   else log LWarn logMessage) ;;;
  let errorResponse :=
    {| body_message := js_or (Some (message err)) "Internal Server Error";
       body_status := statusCode;
       body_stack :=
         match NODE_ENV env with
         | Some m => if (m =? "development") && truthy stack then stack else None
         | None => None
         end |} in
  status_json statusCode errorResponse.

End WithResponse.

End ErrorHandler.

(** ** routes/health.js: the readiness check *)

Module HealthRoutes.

(** [process.env[varName]] for the variables of the model. *)
Definition env_get (env : Env) (varName : string) : option string :=
  if varName =? "RESEND_API_KEY" then RESEND_API_KEY env
  else if varName =? "EMAIL_FROM_ADDRESS" then EMAIL_FROM_ADDRESS env
  else if varName =? "EMAIL_FROM_NAME" then EMAIL_FROM_NAME env
  else if varName =? "TWILIO_ACCOUNT_SID" then TWILIO_ACCOUNT_SID env
  else if varName =? "TWILIO_AUTH_TOKEN" then TWILIO_AUTH_TOKEN env
  else if varName =? "TWILIO_PHONE_NUMBER" then TWILIO_PHONE_NUMBER env
  else if varName =? "RENDER_EXTERNAL_URL" then RENDER_EXTERNAL_URL env
  else if varName =? "NODE_ENV" then NODE_ENV env
  else None.

Definition requiredEnvVars : list string :=
  ["RESEND_API_KEY"; "EMAIL_FROM_ADDRESS"].

Definition missingEnvVars (env : Env) : list string :=
  filter (fun varName => negb (truthy (env_get env varName))) requiredEnvVars.

Inductive ReadyResponse : Type :=
| NotReady (status : Z) (timestamp error : string) (missing : list string)
| Ready (status : Z) (timestamp message : string).

(** The handler of GET /health/ready; [timestamp] is what
    [new Date().toISOString()] returns. *)
Definition ready (env : Env) (timestamp : string) : ReadyResponse :=
  let missingEnvVars := missingEnvVars env in
  if (0 <? List.length missingEnvVars)%nat
  then NotReady 503 timestamp "Missing required environment variables"
         missingEnvVars
  else Ready 200 timestamp "Service is ready to handle requests".

End HealthRoutes.

(** ** server-keepalive.js: the statistics *)

Module KeepAliveStats.

Import ServerKeepAlive.
Local Open Scope Z_scope.

(** What [getStats] returns: the counters, and three computed fields. *)
Record View := {
  view_stats : Stats;
  uptime : Z;
  view_enabled : bool;
  successRate : string
}.

(** [getStats]; [now] is what [Date.now()] returns and [startTime] the
    construction time, both in milliseconds.  [percent s t] is what
    [((s / t) * 100).toFixed(1)] returns, a matter of floating point
    arithmetic and number formatting. *)
Definition getStats (percent : Z -> Z -> string) (this : t) (now : Z) : View :=
  let uptime := now - startTime (stats this) in
  {| view_stats := stats this;
     uptime := uptime / 1000;
     view_enabled := enabled this;
     successRate :=
       if 0 <? totalPings (stats this)
       then percent (successfulPings (stats this)) (totalPings (stats this))
       else "0.0" |}.

End KeepAliveStats.

(** ** middleware/logger.js: the request body that is logged *)

Module LoggerMiddleware.

Section WithValues.
(** The values of a parsed JSON body, with their truthiness, and the value
    that is a given string. *)
Context {Value : Type} (truthy_value : Value -> bool)
        (string_value : string -> Value).

(** An object: its own properties in order, no key twice. *)
Definition Object := list (string * Value).

(** [o[key]], when the property is there. *)
Fixpoint get (o : Object) (key : string) : option Value :=
  match o with
  | [] => None
  | (k, v) :: o' => if k =? key then Some v else get o' key
  end.

(** [o[key] = v] on a property that is there: the value is replaced where
    the property stands. *)
Fixpoint set (o : Object) (key : string) (v : Value) : Object :=
  match o with
  | [] => []
  | (k, x) :: o' => if k =? key then (k, v) :: o' else (k, x) :: set o' key v
  end.

(** [if (o[key]) o[key] = '[REDACTED]']. *)
Definition redact (key : string) (o : Object) : Object :=
  match get o key with
  | Some v => if truthy_value v then set o key (string_value "[REDACTED]") else o
  | None => o
  end.

(** The copy of the body that is printed. *)
Definition sanitizedBody (body : Object) : Object :=
  redact "apiKey" (redact "token" (redact "password" body)).

End WithValues.

(** The three names that are looked for. *)
Definition sensitive (key : string) : bool :=
  (key =? "password") || (key =? "token") || (key =? "apiKey").

(** String values, for running the model. *)
Definition string_truthy (s : string) : bool := negb (s =? "").

End LoggerMiddleware.

(** ** Vocabulary of the further properties *)

Module Facts.

(** The world after more log lines, and after more calls. *)
Definition logged (w : World) (lines : list (Level * string)) : World :=
  {| calls := calls w; logs := logs w ++ lines; clock_year := clock_year w |}.

Definition called (w : World) (cs : list NetCall) : World :=
  {| calls := calls w ++ cs; logs := logs w; clock_year := clock_year w |}.

(** The call [sendEmail] makes with the key [key]. *)
Definition resend_call (key : string) (emailData : Resend.EmailData) : NetCall :=
  ResendPost "https://api.resend.com/emails" ("Bearer " ++ key) 10000 emailData.

(** The key of a service that has one. *)
Definition key_of (this : EmailService.t) : option string :=
  match EmailService.apiKey this with
  | Some key => if key =? "" then None else Some key
  | None => None
  end.

(** What [sendEmail] throws for an error of the provider call. *)
Definition thrown_for (error : JsError) : JsError :=
  match response error with
  | Some r =>
      match data r with
      | BodyData d => new_Error (js_or (data_message d) "Failed to send email")
      | BodyNull =>
          new_Error "Cannot read properties of null (reading 'message')"
      | BodyUndefined =>
          new_Error "Cannot read properties of undefined (reading 'message')"
      end
  | None =>
      if request error then new_Error "No response from email service"
      else error
  end.

(** The payload of a review request email sent in the year [year]. *)
Definition review_request_payload (this : EmailService.t)
    (o : EmailService.ReviewRequest) (year : Z) : Resend.EmailData :=
  {| Resend.from :=
       EmailService.fromName this ++ " <" ++ EmailService.fromEmail this ++ ">";
     Resend.to := EmailService.toEmail o;
     Resend.subject :=
       "We'd love to hear your feedback on " ++ EmailService.businessName o;
     Resend.html :=
       generateReviewRequestHtml year
         {| EmailTemplates.customerName := EmailService.customerName o;
            EmailTemplates.businessName := EmailService.businessName o;
            EmailTemplates.reviewLink := EmailService.reviewLink o;
            EmailTemplates.customData := EmailService.customData o |};
     Resend.tags := [("type", "review_request");
                     ("business", EmailService.businessName o)];
     Resend.reply_to :=
       if truthy (EmailService.replyTo o) then EmailService.replyTo o else None |}.

(** The payload of the test email. *)
Definition test_email_payload (this : EmailService.t) (sent toEmail : string)
    (year : Z) : Resend.EmailData :=
  {| Resend.from :=
       EmailService.fromName this ++ " <" ++ EmailService.fromEmail this ++ ">";
     Resend.to := toEmail;
     Resend.subject := "RevBoost Email Test";
     Resend.html := TestEmailTemplate.generateTestEmailHtml sent year;
     Resend.tags := [("type", "test")];
     Resend.reply_to := None |}.

(** Number of variables of a list that are missing or empty. *)
Definition falsy_count (vars : list (option string)) : nat :=
  List.length (filter (fun v => negb (truthy v)) vars).

(** A provider that answers every call. *)
Definition answering : Remote :=
  {| resend_answer := fun _ _ =>
       Normal {| Js.status := 200;
                 data := BodyData {| data_id := Some "x1";
                                     data_message := None |} |};
     twilio_answer := fun _ _ =>
       Normal {| Twilio.sid := "SM1"; Twilio.status := "queued" |};
     JSON_stringify := fun _ => "{}";
     twilio := fun _ _ => None |}.

(** A Twilio library that takes only account identifiers that start with
    the letters AC. *)
Definition strict_twilio : Remote :=
  {| resend_answer := resend_answer answering;
     twilio_answer := twilio_answer answering;
     JSON_stringify := JSON_stringify answering;
     twilio := fun accountSid _ =>
       if starts_with "AC" accountSid then None
       else Some (new_Error "accountSid must start with AC") |}.

(** The range error of the run time for a status code. *)
Definition invalid_status_code (statusCode : Z) : JsError :=
  new_Error ("Invalid status code: " ++ Z_to_string statusCode).

(** An SMS service with client and sender number. *)
Definition sms_ready : SmsService.t :=
  {| SmsService.accountSid := Some "AC1";
     SmsService.authToken := Some "tok";
     SmsService.fromNumber := Some "+15550000";
     SmsService.client := Some ("AC1", "tok") |}.

Definition good_sms_body : SmsRoutes.Body :=
  {| SmsRoutes.phoneNumber := Some "+15550100";
     SmsRoutes.customerName := Some "Jane";
     SmsRoutes.businessName := Some "Acme";
     SmsRoutes.reviewLink := Some "https://g.co/r";
     SmsRoutes.customData := None |}.

(** The request the SMS route hands to the service. *)
Definition sms_request_of (b : SmsRoutes.Body) : SmsService.ReviewRequest :=
  {| SmsService.phoneNumber := toString (SmsRoutes.phoneNumber b);
     SmsService.options :=
       {| SmsService.customerName := toString (SmsRoutes.customerName b);
          SmsService.businessName := toString (SmsRoutes.businessName b);
          SmsService.reviewLink := toString (SmsRoutes.reviewLink b);
          SmsService.customData := SmsRoutes.customData b |} |}.

(** The message of a review request, as handed to the Twilio client. *)
Definition review_request_sms (n : string) (o : SmsService.ReviewRequest)
  : Twilio.Message :=
  {| Twilio.body := SmsService.generateReviewRequestMessage (SmsService.options o);
     Twilio.from := n;
     Twilio.to := SmsService.phoneNumber o |}.

(** The message of the SMS test. *)
Definition test_sms (n phoneNumber : string) : Twilio.Message :=
  {| Twilio.body := "This is a test message from RevBoost. If you received this, SMS sending is working properly!";
     Twilio.from := n;
     Twilio.to := phoneNumber |}.

(** What the SMS operations return for a message instance. *)
Definition sms_result (m : Twilio.MessageInstance) : Twilio.MessageInstance :=
  {| Twilio.sid := Twilio.sid m; Twilio.status := Twilio.status m |}.

(** An environment with every variable set. *)
Definition full_env : Env :=
  {| RESEND_API_KEY := Some "re_123";
     EMAIL_FROM_ADDRESS := Some "hello@acme.test";
     EMAIL_FROM_NAME := Some "Acme";
     TWILIO_ACCOUNT_SID := Some "AC1";
     TWILIO_AUTH_TOKEN := Some "tok";
     TWILIO_PHONE_NUMBER := Some "+15550000";
     RENDER_EXTERNAL_URL := Some "https://example.onrender.com";
     NODE_ENV := Some "production" |}.

(** The payload of a feedback notification with the rating [r]. *)
Definition feedback_payload (emailService : EmailService.t)
    (o : FeedbackService.Notification) (r : FeedbackService.Rating) (year : Z)
  : Resend.EmailData :=
  {| Resend.from :=
       EmailService.fromName emailService ++ " <"
       ++ EmailService.fromEmail emailService ++ ">";
     Resend.to := FeedbackService.toEmail o;
     Resend.subject :=
       "⚠️ Negative Review Blocked - Customer Feedback ("
       ++ FeedbackService.text r ++ "/5)";
     Resend.html :=
       FeedbackService.generateFeedbackEmailHtml year
         {| FeedbackService.html_businessName := FeedbackService.businessName o;
            FeedbackService.html_rating := Some r;
            FeedbackService.html_feedback := FeedbackService.feedback o;
            FeedbackService.html_customerName := FeedbackService.customerName o |};
     Resend.tags := [("type", "feedback_notification");
                     ("business_id", FeedbackService.businessId o);
                     ("rating", FeedbackService.text r)];
     Resend.reply_to := None |}.

(** The notification the feedback route hands to the service. *)
Definition feedback_request_of (b : FeedbackRoutes.Body)
  : FeedbackService.Notification :=
  {| FeedbackService.businessId := toString (FeedbackRoutes.businessId b);
     FeedbackService.toEmail := toString (FeedbackRoutes.toEmail b);
     FeedbackService.businessName := toString (FeedbackRoutes.businessName b);
     FeedbackService.rating := FeedbackRoutes.rating b;
     FeedbackService.feedback := toString (FeedbackRoutes.feedback b);
     FeedbackService.customerName :=
       js_or (FeedbackRoutes.customerName b) "Anonymous Customer" |}.

(** A body with another customer name. *)
Definition with_customerName (b : FeedbackRoutes.Body) (name : option string)
  : FeedbackRoutes.Body :=
  {| FeedbackRoutes.businessId := FeedbackRoutes.businessId b;
     FeedbackRoutes.toEmail := FeedbackRoutes.toEmail b;
     FeedbackRoutes.businessName := FeedbackRoutes.businessName b;
     FeedbackRoutes.rating := FeedbackRoutes.rating b;
     FeedbackRoutes.feedback := FeedbackRoutes.feedback b;
     FeedbackRoutes.customerName := name |}.

(** A rating test that accepts the digits 1 to 5. *)
Definition digit_rating (s : string) : bool :=
  existsb (String.eqb s) ["1"; "2"; "3"; "4"; "5"].

Definition good_feedback_body : FeedbackRoutes.Body :=
  {| FeedbackRoutes.businessId := Some "biz1";
     FeedbackRoutes.toEmail := Some "owner@acme.test";
     FeedbackRoutes.businessName := Some "Acme";
     FeedbackRoutes.rating := Some (FeedbackService.rating_of_Z 2);
     FeedbackRoutes.feedback := Some "Slow service";
     FeedbackRoutes.customerName := None |}.

(** [n] copies of [s]. *)
Fixpoint repeat_string (s : string) (n : nat) : string :=
  match n with
  | O => ""
  | S n' => s ++ repeat_string s n'
  end.

End Facts.

(** * Properties *)

(** ** Strings *)

(** Case analysis on the first comparison of a character variable with a
    constant in the goal. *)
Ltac case_char :=
  match goal with
  | |- context [Ascii.eqb ?a ?c] =>
      is_var a; destruct (Ascii.eqb_spec a c) as [->|?]
  end.

Section StringFacts.

Lemma append_assoc (a b c : string) : (a ++ b) ++ c = a ++ (b ++ c).
Proof. induction a; simpl; congruence. Qed.

Lemma length_append (a b : string) :
  String.length (a ++ b) = String.length a + String.length b.
Proof. induction a; simpl; congruence. Qed.

Lemma replaceAll_absent c r s : occurs c s = false -> replaceAll c r s = s.
Proof.
  induction s as [|x s IH]; simpl; [reflexivity|].
  destruct (x =? c)%char; simpl; [discriminate|].
  intros H; now rewrite IH.
Qed.

Lemma occurs_app c (a b : string) : occurs c (a ++ b) = occurs c a || occurs c b.
Proof. induction a; simpl; [reflexivity|]. rewrite IHa. now rewrite orb_assoc. Qed.

Lemma count_char_app c (a b : string) :
  count_char c (a ++ b) = count_char c a + count_char c b.
Proof. induction a; simpl; [reflexivity|]. rewrite IHa. lia. Qed.

Lemma length_replaceAll c r s :
  String.length (replaceAll c r s) + count_char c s
  = String.length s + count_char c s * String.length r.
Proof.
  induction s as [|x s IH]; simpl; [reflexivity|].
  destruct (x =? c)%char; simpl.
  - rewrite length_append. lia.
  - lia.
Qed.

Lemma starts_with_app (p s : string) : starts_with p (p ++ s) = true.
Proof.
  induction p as [|a p IH]; simpl; [reflexivity|].
  now rewrite Ascii.eqb_refl.
Qed.

Lemma starts_with_split (p s : string) :
  starts_with p s = true -> exists tail, s = p ++ tail.
Proof.
  revert s; induction p as [|a p IH]; intros s H.
  - now exists s.
  - destruct s as [|b s]; simpl in H; [discriminate|].
    apply andb_prop in H as [Hab H].
    apply Ascii.eqb_eq in Hab as ->.
    destruct (IH _ H) as [tail ->]. now exists tail.
Qed.

Lemma occurs_replaceAll (c d : ascii) (r s : string) :
  occurs c r = false -> occurs c s = false ->
  occurs c (replaceAll d r s) = false.
Proof.
  intros Hr. induction s as [|a s IH]; simpl; [reflexivity|].
  intros H. apply orb_false_elim in H as [Ha Hs].
  destruct (a =? d)%char.
  - now rewrite occurs_app, Hr, (IH Hs).
  - simpl. now rewrite Ha, (IH Hs).
Qed.

End StringFacts.

(** ** The sanitizer *)

Section Sanitizer.

Lemma amps_ok_at (t before rest : string) :
  amps_ok t = true -> t = before ++ String "&" rest ->
  entity_at (String "&" rest) = true.
Proof.
  revert t; induction before as [|b before IH]; intros t Hok ->; simpl in Hok.
  - apply andb_prop in Hok as [H _]. exact H.
  - apply andb_prop in Hok as [_ H]. exact (IH _ H eq_refl).
Qed.

(** The five replacements act on each character on its own: the entity
    written for one character is not touched by the later replacements. *)
Lemma escapeHtml_cons (a : ascii) (s : string) :
  escapeHtml (String a s) = escape_char a ++ escapeHtml s.
Proof.
  unfold escapeHtml, escape_char, dq_char. simpl replaceAll at 5.
  destruct (Ascii.eqb_spec a "&") as [->|H1]; [reflexivity|].
  simpl replaceAll at 4.
  destruct (Ascii.eqb_spec a "<") as [->|H2]; [reflexivity|].
  simpl replaceAll at 3.
  destruct (Ascii.eqb_spec a ">") as [->|H3]; [reflexivity|].
  simpl replaceAll at 2.
  destruct (Ascii.eqb_spec a "034") as [->|H4]; [reflexivity|].
  simpl replaceAll at 1.
  destruct (Ascii.eqb_spec a "'") as [->|H5]; reflexivity.
Qed.

Lemma escapeHtml_escape_chars (s : string) : escapeHtml s = escape_chars s.
Proof.
  induction s as [|a s IH]; [reflexivity|].
  rewrite escapeHtml_cons, IH. reflexivity.
Qed.

(** None of the four other significant characters is written. *)
Lemma escape_char_clean (c a : ascii) :
  In c ["<"; ">"; dq_char; "'"]%char -> occurs c (escape_char a) = false.
Proof.
  unfold dq_char. intros Hc. unfold escape_char, dq_char.
  repeat (case_char).
  1-5: simpl in Hc; decompose [or] Hc; subst; try reflexivity; contradiction.
  simpl. rewrite orb_false_r. apply Ascii.eqb_neq.
  simpl in Hc; decompose [or] Hc; subst; try assumption; contradiction.
Qed.

Lemma escapeHtml_clean (c : ascii) (s : string) :
  In c ["<"; ">"; dq_char; "'"]%char -> occurs c (escapeHtml s) = false.
Proof.
  intros Hc. rewrite escapeHtml_escape_chars.
  induction s as [|a s IH]; [reflexivity|].
  simpl. now rewrite occurs_app, IH, escape_char_clean.
Qed.

Lemma entity_at_app (e t : string) : In e entities -> entity_at (e ++ t) = true.
Proof.
  intros He. unfold entity_at. apply existsb_exists. exists e.
  split; [exact He | apply starts_with_app].
Qed.

Lemma amps_ok_escape_char (a : ascii) (t : string) :
  amps_ok (escape_char a ++ t) = amps_ok t.
Proof.
  unfold escape_char, dq_char.
  repeat case_char.
  1-5: reflexivity.
  simpl. destruct (Ascii.eqb_spec a "&"); [contradiction | reflexivity].
Qed.

Lemma amps_ok_escapeHtml (s : string) : amps_ok (escapeHtml s) = true.
Proof.
  rewrite escapeHtml_escape_chars.
  induction s as [|a s IH]; [reflexivity|].
  simpl. now rewrite amps_ok_escape_char.
Qed.

(** Each significant character of the input gives one ampersand. *)
Lemma count_amp_escape_chars (s : string) :
  count_char "&" (escape_chars s) = count_significant s.
Proof.
  induction s as [|a s IH]; [reflexivity|].
  simpl. rewrite count_char_app, IH. f_equal.
  unfold escape_char, html_significant, dq_char.
  repeat (case_char); try reflexivity.
  simpl. destruct (Ascii.eqb_spec a "&"); [contradiction | reflexivity].
Qed.

Lemma has_significant_count (s : string) :
  has_significant s = negb (count_significant s =? 0)%nat.
Proof.
  induction s as [|a s IH]; [reflexivity|].
  simpl. rewrite IH. now destruct (html_significant a).
Qed.

Lemma escape_chars_plain (s : string) :
  has_significant s = false -> escape_chars s = s.
Proof.
  induction s as [|a s IH]; [reflexivity|].
  simpl. intros H. apply orb_false_elim in H as [Ha Hs].
  rewrite (IH Hs). unfold escape_char, html_significant in *.
  repeat (case_char; [discriminate Ha|]).
  reflexivity.
Qed.

Lemma eqb_length_neq (a b : string) :
  String.length a <> String.length b -> (a =? b) = false.
Proof.
  intros H. apply String.eqb_neq. congruence.
Qed.

(** C4. For every input, the output of [escapeHtml] has none of the four
    characters less-than, greater-than, double quote and apostrophe, every
    ampersand of the output starts one of the five entities, and the output
    is the input with each of the five significant characters replaced by its
    entity in one pass, so that no entity text is escaped again. *)
Theorem escapeHtml_output (s : string) :
  occurs "<" (escapeHtml s) = false
  /\ occurs ">" (escapeHtml s) = false
  /\ occurs dq_char (escapeHtml s) = false
  /\ occurs "'" (escapeHtml s) = false
  /\ (forall before rest : string,
        escapeHtml s = before ++ String "&" rest ->
        exists e tail, In e entities /\ String "&" rest = e ++ tail)
  /\ escapeHtml s = escape_chars s.
Proof.
  repeat split; try (apply escapeHtml_clean; simpl; tauto).
  - intros before rest H.
    pose proof (amps_ok_at _ _ _ (amps_ok_escapeHtml s) H) as Hent.
    unfold entity_at in Hent. apply existsb_exists in Hent as [e [Hin Hpre]].
    exists e. apply starts_with_split in Hpre as [tail Ht]. now exists tail.
  - apply escapeHtml_escape_chars.
Qed.

(** C4, at a concrete input. *)
Lemma escapeHtml_output_witness :
  escapeHtml "a&b" = "a" ++ String "&" "amp;b"
  /\ exists e tail, In e entities /\ String "&" "amp;b" = e ++ tail.
Proof.
  split; [reflexivity|].
  exact (proj1 (proj2 (proj2 (proj2 (proj2 (escapeHtml_output "a&b")))))
           "a" "amp;b" eq_refl).
Defined.

(** C9. Escaping twice is escaping once and then replacing every ampersand
    of the result, each written by the first pass, by its entity; the second
    pass adds four characters for each significant character of the input,
    and the two results differ exactly when the input holds a significant
    character. *)
Theorem escapeHtml_twice (x : string) :
  escapeHtml (escapeHtml x) = replaceAll "&" "&amp;" (escapeHtml x)
  /\ count_char "&" (escapeHtml x) = count_significant x
  /\ String.length (escapeHtml (escapeHtml x))
     = String.length (escapeHtml x) + 4 * count_significant x
  /\ (escapeHtml (escapeHtml x) =? escapeHtml x) = negb (has_significant x).
Proof.
  assert (E : escapeHtml (escapeHtml x) = replaceAll "&" "&amp;" (escapeHtml x)).
  { unfold escapeHtml at 1.
    set (y := escapeHtml x).
    assert (Hc : forall c, In c ["<"; ">"; dq_char; "'"]%char ->
                 occurs c (replaceAll "&" "&amp;" y) = false).
    { intros c Hc. apply occurs_replaceAll; [|now apply escapeHtml_clean].
      unfold dq_char in Hc. simpl in Hc; decompose [or] Hc; subst;
        try reflexivity; contradiction. }
    rewrite (replaceAll_absent "<"), (replaceAll_absent ">"),
      (replaceAll_absent dq_char), (replaceAll_absent "'");
      try reflexivity; apply Hc; simpl; tauto. }
  assert (C : count_char "&" (escapeHtml x) = count_significant x).
  { rewrite escapeHtml_escape_chars. apply count_amp_escape_chars. }
  assert (L : String.length (escapeHtml (escapeHtml x))
              = String.length (escapeHtml x) + 4 * count_significant x).
  { rewrite E. pose proof (length_replaceAll "&" "&amp;" (escapeHtml x)) as H.
    rewrite C in H. simpl String.length in H at 3. lia. }
  repeat split; try assumption.
  rewrite has_significant_count.
  destruct (Nat.eqb_spec (count_significant x) 0) as [H0|H0]; simpl.
  - assert (Hs : has_significant x = false)
      by (rewrite has_significant_count, H0; reflexivity).
    rewrite (escapeHtml_escape_chars x), (escape_chars_plain x Hs).
    rewrite escapeHtml_escape_chars, (escape_chars_plain x Hs).
    apply String.eqb_refl.
  - apply eqb_length_neq. rewrite L. lia.
Qed.

(** A value with a significant character that two passes escape twice. *)
Example escapeHtml_twice_example :
  escapeHtml "<b>" = "&lt;b&gt;"
  /\ escapeHtml (escapeHtml "<b>") = "&amp;lt;b&amp;gt;".
Proof. split; reflexivity. Qed.

End Sanitizer.

(** ** The SMS message *)

Section SmsMessage.

Import SmsService.

























(** *** Occurrences of the placeholders, whatever the field values *)















(** What the code returns there, and two more inputs outside the
    conditions: a customer name with a dollar pattern, which stands for the
    text after the placeholder, and a template whose literal text holds
    opening braces, where a name without brace completes a placeholder. *)
Example generateReviewRequestMessage_outside_conditions :
  generateReviewRequestMessage
    {| customerName := "{{businessName}}"; businessName := "Acme";
       reviewLink := "https://g.co/r";
       customData :=
         Some {| buttonText := None;
                 messageTemplate :=
                   Some "{{customerName}} | {{businessName}} | {{businessName}}" |} |}
  = "Acme | {{businessName}} | {{businessName}}"
  /\ generateReviewRequestMessage
       {| customerName := "$'"; businessName := "Acme";
          reviewLink := "https://g.co/r";
          customData :=
            Some {| buttonText := None;
                    messageTemplate :=
                      Some "Hi {{customerName}}, yes {{customerName}}" |} |}
     = "Hi , yes {{customerName}}, yes {{customerName}}"
  /\ generateReviewRequestMessage
       {| customerName := "ness"; businessName := "Acme";
          reviewLink := "https://g.co/r";
          customData :=
            Some {| buttonText := None;
                    messageTemplate :=
                      Some "{{busi{{customerName}}Name}} and {{businessName}}" |} |}
     = "Acme and {{businessName}}".
Proof. repeat split; reflexivity. Qed.

(** The scenario of the specification: a template with the customer's name
    and an unknown placeholder. *)
Example generateReviewRequestMessage_unknown_placeholder :
  generateReviewRequestMessage
    {| customerName := "Jane"; businessName := "Acme";
       reviewLink := "https://g.co/r";
       customData :=
         Some {| buttonText := None;
                 messageTemplate := Some "Hi {{customerName}} {{foo}}" |} |}
  = "Hi Jane {{foo}}".
Proof. reflexivity. Qed.

(** C6. The replacement text of each of the three calls is read for dollar
    patterns and the text written by one call is searched by the next, so a
    field is not always written as it is: two dollar signs in the customer's
    name come out as one, a dollar sign followed by an ampersand in the review
    link comes out as the placeholder itself, and a customer name that spells
    a placeholder is replaced by the business name.  The default text, built
    without a template, writes the same name unchanged. *)
Theorem generateReviewRequestMessage_field_rewritten :
  generateReviewRequestMessage
    {| customerName := "A$$B"; businessName := "Acme";
       reviewLink := "https://g.co/r";
       customData :=
         Some {| buttonText := None;
                 messageTemplate := Some "Hi {{customerName}} {{foo}}" |} |}
  = "Hi A$B {{foo}}"
  /\ generateReviewRequestMessage
       {| customerName := "Jane"; businessName := "Acme";
          reviewLink := "https://g.co/r?a=$&b=1";
          customData :=
            Some {| buttonText := None;
                    messageTemplate := Some "Rate us: {{reviewLink}}" |} |}
     = "Rate us: https://g.co/r?a={{reviewLink}}b=1"
  /\ generateReviewRequestMessage
       {| customerName := "{{businessName}}"; businessName := "Acme";
          reviewLink := "https://g.co/r";
          customData :=
            Some {| buttonText := None;
                    messageTemplate := Some "Hi {{customerName}} from {{businessName}}" |} |}
     = "Hi Acme from {{businessName}}"
  /\ generateReviewRequestMessage
       {| customerName := "A$$B"; businessName := "Acme";
          reviewLink := "https://g.co/r"; customData := None |}
     = "Hi A$$B, thank you for choosing Acme! We'd love to hear your feedback. Please share your experience here: https://g.co/r".
Proof. repeat split; reflexivity. Qed.

End SmsMessage.

(** ** The review request email *)

Section ReviewRequestHtml.

Lemma contains_cons (p : string) (c : ascii) (s : string) :
  contains p (String c s) = starts_with p (String c s) || contains p s.
Proof. reflexivity. Qed.

Lemma contains_app_r (p a s : string) :
  contains p s = true -> contains p (a ++ s) = true.
Proof.
  intros H. induction a as [|c a IH]; [exact H|].
  cbn [append]. rewrite contains_cons, IH. apply orb_true_r.
Qed.

Lemma contains_app_l (p s : string) : contains p (p ++ s) = true.
Proof.
  destruct (p ++ s) as [|c t] eqn:E.
  - destruct p; [reflexivity | discriminate].
  - rewrite contains_cons, <- E, starts_with_app. reflexivity.
Qed.

Lemma contains_app3 (a b c s : string) :
  contains (a ++ b ++ c) (a ++ b ++ c ++ s) = true.
Proof.
  rewrite <- !append_assoc. rewrite (append_assoc a b c). apply contains_app_l.
Qed.

(** Whatever the request, the button text stands in the page as it was
    given, between the end of the opening tag of the link and its closing
    tag. *)
Lemma generateReviewRequestHtml_buttonText_verbatim (year : Z) (o : Options) :
  contains (">" ++ buttonTextOf o ++ "</a>") (generateReviewRequestHtml year o)
  = true.
Proof.
  unfold generateReviewRequestHtml. cbn [String.concat].
  rewrite !append_assoc.
  repeat first [ apply contains_app3 | apply contains_app_r ].
Qed.

(** C5. The button text of the request is written into the page as it is:
    with a button text that holds markup, the page holds that markup right
    inside the link, whereas the same markup given as the customer's name
    only appears escaped. *)
Theorem generateReviewRequestHtml_buttonText_raw :
  contains ("class=" ++ dq ++ "button" ++ dq ++ "><script>alert(1)</script></a>")
    (generateReviewRequestHtml 2025
       {| EmailTemplates.customerName := "Jane";
          EmailTemplates.businessName := "Acme";
          EmailTemplates.reviewLink := "https://g.co/r";
          EmailTemplates.customData :=
            Some {| buttonText := Some "<script>alert(1)</script>";
                    messageTemplate := None |} |}) = true
  /\ contains "<script>"
       (generateReviewRequestHtml 2025
          {| EmailTemplates.customerName := "<script>alert(1)</script>";
             EmailTemplates.businessName := "Acme";
             EmailTemplates.reviewLink := "https://g.co/r";
             EmailTemplates.customData := None |}) = false
  /\ contains "<p>Hello &lt;script&gt;alert(1)&lt;/script&gt;,</p>"
       (generateReviewRequestHtml 2025
          {| EmailTemplates.customerName := "<script>alert(1)</script>";
             EmailTemplates.businessName := "Acme";
             EmailTemplates.reviewLink := "https://g.co/r";
             EmailTemplates.customData := None |}) = true.
Proof. repeat split; vm_compute; reflexivity. Qed.

End ReviewRequestHtml.

(** ** Provider calls *)

Section ProviderCalls.

Context (R : Remote).

Lemma truthy_false (v : option string) :
  truthy v = false -> v = None \/ v = Some "".
Proof.
  destruct v as [s|]; [|now left]. cbn [truthy].
  destruct (String.eqb_spec s "") as [->|]; [now right | discriminate].
Qed.

Lemma sms_not_configured (this : SmsService.t) :
  SmsService.client this = None \/ truthy (SmsService.fromNumber this) = false ->
  SmsService.configured this = None.
Proof.
  unfold SmsService.configured. intros [H|H].
  - now rewrite H.
  - destruct (SmsService.client this) as [[s a]|]; [|reflexivity].
    destruct (truthy_false _ H) as [-> | ->]; reflexivity.
Qed.

(** Without a key [sendEmail] throws from inside its own [try]; the handler
    finds neither response nor request, logs, and throws the error again. *)
Lemma sendEmail_unconfigured (this : EmailService.t) (d : Resend.EmailData)
    (w : World) :
  truthy (EmailService.apiKey this) = false ->
  EmailService.sendEmail R this d w =
    (Abrupt (new_Error "Resend API key is not configured"),
     {| calls := calls w;
        logs := (logs w ++
                 [(LError, "Email request setup error: Resend API key is not configured")])%list;
        clock_year := clock_year w |}).
Proof.
  intros H. unfold EmailService.sendEmail.
  destruct (truthy_false _ H) as [-> | ->]; reflexivity.
Qed.

Lemma sendReviewRequest_unconfigured (this : EmailService.t)
    (o : EmailService.ReviewRequest) (w : World) :
  truthy (EmailService.apiKey this) = false ->
  exists w',
    EmailService.sendReviewRequest R this o w =
      (Abrupt (new_Error "Resend API key is not configured"), w')
    /\ calls w' = calls w.
Proof.
  intros H. unfold EmailService.sendReviewRequest.
  unfold try_catch, bind, log, getFullYear. cbv beta iota zeta.
  rewrite sendEmail_unconfigured by assumption.
  eexists. split; reflexivity.
Qed.

(** The client is built only from both credentials. *)
Lemma sms_constructor_client (env : Env) (w : World) :
  truthy (TWILIO_ACCOUNT_SID env) && truthy (TWILIO_AUTH_TOKEN env) = false ->
  exists this w',
    SmsService.constructor R env w = (Normal this, w')
    /\ SmsService.client this = None /\ calls w' = calls w.
Proof.
  intros H. unfold SmsService.constructor, SmsService.new_client.
  rewrite H. cbn [negb].
  unfold bind, log, ret.
  destruct (negb (truthy (TWILIO_PHONE_NUMBER env)));
    destruct (TWILIO_ACCOUNT_SID env), (TWILIO_AUTH_TOKEN env);
    (eexists; eexists; split; [reflexivity|]; split; reflexivity).
Qed.

(** C2. With the API key of the email provider missing, [sendEmail] and the
    review request built on it throw the error that names the missing key,
    and with the Twilio client or the sender number missing, both SMS
    operations throw the error that says so; in each case no call leaves the
    process: the list of calls is the one before the attempt. *)
Theorem unconfigured_provider_fails_fast :
  (forall (this : EmailService.t) (emailData : Resend.EmailData) (w : World),
      truthy (EmailService.apiKey this) = false ->
      fst (EmailService.sendEmail R this emailData w)
        = Abrupt (new_Error "Resend API key is not configured")
      /\ calls (snd (EmailService.sendEmail R this emailData w)) = calls w)
  /\ (forall (this : EmailService.t) (o : EmailService.ReviewRequest) (w : World),
      truthy (EmailService.apiKey this) = false ->
      fst (EmailService.sendReviewRequest R this o w)
        = Abrupt (new_Error "Resend API key is not configured")
      /\ calls (snd (EmailService.sendReviewRequest R this o w)) = calls w)
  /\ (forall (this : SmsService.t) (o : SmsService.ReviewRequest) (w : World),
      SmsService.client this = None
      \/ truthy (SmsService.fromNumber this) = false ->
      fst (SmsService.sendReviewRequest R this o w)
        = Abrupt (new_Error "Twilio is not fully configured")
      /\ calls (snd (SmsService.sendReviewRequest R this o w)) = calls w)
  /\ (forall (this : SmsService.t) (phoneNumber : string) (w : World),
      SmsService.client this = None
      \/ truthy (SmsService.fromNumber this) = false ->
      fst (SmsService.sendTestSms R this phoneNumber w)
        = Abrupt (new_Error "Twilio is not fully configured")
      /\ calls (snd (SmsService.sendTestSms R this phoneNumber w)) = calls w).
Proof.
  split; [|split; [|split]].
  - intros this d w H. now rewrite sendEmail_unconfigured.
  - intros this o w H.
    destruct (sendReviewRequest_unconfigured this o w H) as [w' [-> Hw]].
    now split.
  - intros this o w H. unfold SmsService.sendReviewRequest.
    rewrite (sms_not_configured this H). split; reflexivity.
  - intros this p w H. unfold SmsService.sendTestSms.
    rewrite (sms_not_configured this H). split; reflexivity.
Qed.

(** The cases of a failed provider call of [sendEmail], which exclude one
    another.  An error with a response whose body has properties gives a
    new error with the provider's message, or with the fallback text when
    there is none; an error with a response whose body is [null] or
    [undefined] gives the type error of the property read; an error without
    response but with a request gives the new error that no response came;
    any other error is thrown again as it is.  In every case exactly one
    call was made. *)
Lemma sendEmail_failure_cases
    (this : EmailService.t) (key : string) (emailData : Resend.EmailData)
    (w : World) (error : JsError) :
  EmailService.apiKey this = Some key -> key <> "" ->
  resend_answer R (calls w) emailData = Abrupt error ->
  exists thrown : JsError,
    fst (EmailService.sendEmail R this emailData w) = Abrupt thrown
    /\ (forall r d, response error = Some r -> data r = BodyData d ->
          thrown = new_Error (js_or (data_message d) "Failed to send email"))
    /\ (forall r, response error = Some r -> data r = BodyNull ->
          thrown = new_Error "Cannot read properties of null (reading 'message')")
    /\ (forall r, response error = Some r -> data r = BodyUndefined ->
          thrown
          = new_Error "Cannot read properties of undefined (reading 'message')")
    /\ (response error = None -> request error = true ->
          thrown = new_Error "No response from email service")
    /\ (response error = None -> request error = false -> thrown = error)
    /\ calls (snd (EmailService.sendEmail R this emailData w))
       = (calls w ++ [ResendPost "https://api.resend.com/emails"
                        ("Bearer " ++ key) 10000 emailData])%list.
Proof.
  intros Hk Hne Hans.
  remember (EmailService.sendEmail R this emailData w) as p eqn:Ep.
  unfold EmailService.sendEmail in Ep. rewrite Hk in Ep.
  destruct (String.eqb_spec key "") as [->|_]; [contradiction|].
  unfold try_catch, bind, axios_post in Ep. rewrite Hans in Ep.
  destruct error as [m [[st [| |d]]|] [|]];
    cbn [response request message data status read_message] in *;
    subst p; cbn [fst snd log throw ret calls];
    (eexists; split; [reflexivity|]);
    repeat split; try reflexivity; try (intros; discriminate);
    try (intros r0 d0 H0 H1; injection H0 as <-; cbn [data] in H1;
         first [discriminate | injection H1 as <-; reflexivity]);
    try (intros r0 H0 H1; injection H0 as <-; cbn [data] in H1;
         first [discriminate | reflexivity]).
Qed.

End ProviderCalls.

(** C2, on a service without key and on an SMS service without number. *)
Lemma unconfigured_provider_fails_fast_witness :
  (fst (EmailService.sendEmail Doubles.unreachable Doubles.email_without_key
          Doubles.email_data Doubles.world0)
     = Abrupt (new_Error "Resend API key is not configured")
   /\ calls (snd (EmailService.sendEmail Doubles.unreachable
                    Doubles.email_without_key Doubles.email_data Doubles.world0))
      = calls Doubles.world0)
  /\ (fst (SmsService.sendTestSms Doubles.unreachable Doubles.sms_without_number
             "+15550100" Doubles.world0)
        = Abrupt (new_Error "Twilio is not fully configured")
      /\ calls (snd (SmsService.sendTestSms Doubles.unreachable
                       Doubles.sms_without_number "+15550100" Doubles.world0))
         = calls Doubles.world0).
Proof.
  split.
  - exact (proj1 (unconfigured_provider_fails_fast Doubles.unreachable)
             Doubles.email_without_key Doubles.email_data Doubles.world0 eq_refl).
  - exact (proj2 (proj2 (proj2 (unconfigured_provider_fails_fast Doubles.unreachable)))
             Doubles.sms_without_number "+15550100" Doubles.world0
             (or_intror eq_refl)).
Defined.

(** C3. A provider that rejects an email with the body [null]: [sendEmail]
    logs the status with the printed body and then, reading the message of
    the body, throws a type error instead of the error with the fallback
    text; one call was made.  A rejection with an empty object as body gets
    the fallback text. *)
Theorem sendEmail_null_body :
  EmailService.sendEmail Doubles.null_body Doubles.email_with_key
    Doubles.email_data Doubles.world0
  = (Abrupt (new_Error "Cannot read properties of null (reading 'message')"),
     {| calls := [ResendPost "https://api.resend.com/emails" "Bearer re_123"
                    10000 Doubles.email_data];
        logs := [(LError, "Resend API error: 500 - null")];
        clock_year := 2025 |})
  /\ fst (EmailService.sendEmail Doubles.empty_body Doubles.email_with_key
            Doubles.email_data Doubles.world0)
     = Abrupt (new_Error "Failed to send email").
Proof. split; reflexivity. Qed.

(** The end-to-end scenario of the specification: a provider that times out
    makes [sendEmail] throw the error that no response came. *)
Example sendEmail_timeout :
  fst (EmailService.sendEmail Doubles.unreachable Doubles.email_with_key
         Doubles.email_data Doubles.world0)
  = Abrupt (new_Error "No response from email service").
Proof. reflexivity. Qed.

(** ** Request validation *)

Section Validation.

Context (V : Validators) (R : Remote).

Lemma check_fails (path : string) (v : option string) (test : string -> bool)
    (msg : string) :
  test (toString v) = false -> check path v test msg <> [].
Proof. intros H. unfold check. rewrite H. discriminate. Qed.

Lemma app_not_nil_l {A} (l l' : list A) : l <> [] -> (l ++ l')%list <> [].
Proof. destruct l; [contradiction | discriminate]. Qed.

Lemma app_not_nil_r {A} (l l' : list A) : l' <> [] -> (l ++ l')%list <> [].
Proof. destruct l; [trivial | discriminate]. Qed.

(** C1. When the validation chain of a review request reports an error, the
    handler answers with status 400 and the list of errors, and it leaves the
    world as it found it: no line was logged and no call was made, so the
    send operation of the service was not entered.  The chain reports an
    error as soon as the recipient fails its test, the customer or business
    name is missing or empty, the review link fails its test, or a reply-to
    address is given and fails its test. *)
Theorem review_request_validation_short_circuit :
  (forall (emailService : EmailService.t) (b : EmailRoutes.Body) (w : World),
      EmailRoutes.review_request_errors V b <> [] ->
      EmailRoutes.review_request V R emailService b w
      = (Normal (Responded 400 false
                   (Errors (EmailRoutes.review_request_errors V b))), w))
  /\ (forall (smsService : SmsService.t) (b : SmsRoutes.Body) (w : World),
      SmsRoutes.review_request_errors V b <> [] ->
      SmsRoutes.review_request V R smsService b w
      = (Normal (Responded 400 false
                   (Errors (SmsRoutes.review_request_errors V b))), w))
  /\ (forall b : EmailRoutes.Body,
      isEmail V (toString (EmailRoutes.toEmail b)) = false
      \/ toString (EmailRoutes.customerName b) = ""
      \/ toString (EmailRoutes.businessName b) = ""
      \/ isURL V (toString (EmailRoutes.reviewLink b)) = false
      \/ (exists r, EmailRoutes.replyTo b = Some r /\ isEmail V r = false) ->
      EmailRoutes.review_request_errors V b <> [])
  /\ (forall b : SmsRoutes.Body,
      isMobilePhone V (toString (SmsRoutes.phoneNumber b)) = false
      \/ toString (SmsRoutes.customerName b) = ""
      \/ toString (SmsRoutes.businessName b) = ""
      \/ isURL V (toString (SmsRoutes.reviewLink b)) = false ->
      SmsRoutes.review_request_errors V b <> []).
Proof.
  assert (N : forall s, s = "" -> notEmpty s = false) by (now intros s ->).
  repeat split.
  - intros svc b w H. unfold EmailRoutes.review_request, try_catch.
    destruct (EmailRoutes.review_request_errors V b); [contradiction | reflexivity].
  - intros svc b w H. unfold SmsRoutes.review_request, try_catch.
    destruct (SmsRoutes.review_request_errors V b); [contradiction | reflexivity].
  - intros b H. unfold EmailRoutes.review_request_errors.
    destruct H as [H|[H|[H|[H|[r [Hr H]]]]]].
    + now apply app_not_nil_l, check_fails.
    + now apply app_not_nil_r, app_not_nil_l, check_fails, N.
    + now apply app_not_nil_r, app_not_nil_r, app_not_nil_l, check_fails, N.
    + now apply app_not_nil_r, app_not_nil_r, app_not_nil_r, app_not_nil_l,
        check_fails.
    + do 4 apply app_not_nil_r. rewrite Hr. cbn [check_optional].
      now apply check_fails.
  - intros b H. unfold SmsRoutes.review_request_errors.
    destruct H as [H|[H|[H|H]]].
    + now apply app_not_nil_l, check_fails.
    + now apply app_not_nil_r, app_not_nil_l, check_fails, N.
    + now apply app_not_nil_r, app_not_nil_r, app_not_nil_l, check_fails, N.
    + now apply app_not_nil_r, app_not_nil_r, app_not_nil_r, check_fails.
Qed.

End Validation.

(** C1, on a request whose recipient is not an address and on a request
    without customer name. *)
Lemma review_request_validation_short_circuit_witness :
  EmailRoutes.review_request Doubles.validators Doubles.unreachable
    Doubles.email_with_key Doubles.bad_email_body Doubles.world0
  = (Normal (Responded 400 false
       (Errors
          [{| path := "toEmail";
              msg := "Valid email address required";
              value := Some "not-an-email" |}])), Doubles.world0)
  /\ SmsRoutes.review_request Doubles.validators Doubles.unreachable
       Doubles.sms_without_number Doubles.bad_sms_body Doubles.world0
     = (Normal (Responded 400 false
          (Errors
             [{| path := "customerName";
                 msg := "Customer name is required";
                 value := None |}])), Doubles.world0).
Proof.
  split.
  - apply (proj1 (review_request_validation_short_circuit
                    Doubles.validators Doubles.unreachable)
             Doubles.email_with_key Doubles.bad_email_body Doubles.world0).
    discriminate.
  - apply (proj1 (proj2 (review_request_validation_short_circuit
                           Doubles.validators Doubles.unreachable))
             Doubles.sms_without_number Doubles.bad_sms_body Doubles.world0).
    discriminate.
Defined.

(** ** The keep-alive scheduler *)

Section KeepAlive.

Import ServerKeepAlive.
Local Open Scope Z_scope.

Lemma count_cons (f : PingResult -> bool) (p : Z * PingResult)
    (l : list (Z * PingResult)) :
  count f (p :: l) = (if f (snd p) then 1 else 0) + count f l.
Proof.
  unfold count. cbn [filter]. destruct (f (snd p)); cbn [List.length]; lia.
Qed.

(** What one tick does to each counter. *)
Lemma performSelfPing_stats (this : t) (now : Z) (r : PingResult) :
  totalPings (stats (performSelfPing this now r)) = totalPings (stats this) + 1
  /\ failedPings (stats (performSelfPing this now r))
     = failedPings (stats this) + (if is_rejected r then 1 else 0)
  /\ successfulPings (stats (performSelfPing this now r))
     = successfulPings (stats this) + (if is_ok_200 r then 1 else 0)
  /\ lastPingTime (stats (performSelfPing this now r)) = Some now
  /\ startTime (stats (performSelfPing this now r)) = startTime (stats this).
Proof.
  destruct r as [status|e]; cbn [performSelfPing stats is_rejected is_ok_200].
  - destruct (status =? 200); cbn; repeat split; lia.
  - cbn; repeat split; lia.
Qed.

Lemma ticks_stats (l : list (Z * PingResult)) :
  forall this : t,
  totalPings (stats (ticks l this)) = totalPings (stats this) + Z.of_nat (List.length l)
  /\ failedPings (stats (ticks l this)) = failedPings (stats this) + count is_rejected l
  /\ successfulPings (stats (ticks l this))
     = successfulPings (stats this) + count is_ok_200 l.
Proof.
  induction l as [|[now r] l IH]; intros this.
  - unfold count. cbn. repeat split; lia.
  - cbn [ticks]. destruct (IH (performSelfPing this now r)) as [T [F S]].
    destruct (performSelfPing_stats this now r) as [T1 [F1 [S1 _]]].
    rewrite T, F, S, T1, F1, S1, !count_cons. cbn [snd List.length].
    repeat split; lia.
Qed.

Lemma count_split (l : list (Z * PingResult)) :
  forallb (fun p => is_rejected (snd p) || is_ok_200 (snd p)) l = true ->
  count is_ok_200 l = Z.of_nat (List.length l) - count is_rejected l.
Proof.
  induction l as [|[now r] l IH]; intros H.
  - reflexivity.
  - cbn [forallb snd] in H. apply andb_prop in H as [Hr Hl].
    rewrite !count_cons, (IH Hl). cbn [snd List.length].
    destruct r as [status|e]; cbn [is_rejected is_ok_200 orb] in *.
    + rewrite Hr. lia.
    + lia.
Qed.

(** C7. Every tick adds one to [totalPings] and sets [lastPingTime]; it adds
    one to [failedPings] when the request is rejected, one to
    [successfulPings] when the request resolves with status 200, and to
    neither when it resolves with another status.  So after the ticks [l],
    [totalPings] has grown by their number, [failedPings] by the number of
    rejected ones and [successfulPings] by the number of those answered with
    status 200, which is the difference of the two when every tick that was
    not rejected was answered with status 200. *)
Theorem ticks_counters (this : t) (l : list (Z * PingResult)) :
  (forall now r,
      totalPings (stats (performSelfPing this now r)) = totalPings (stats this) + 1
      /\ lastPingTime (stats (performSelfPing this now r)) = Some now
      /\ failedPings (stats (performSelfPing this now r))
         = failedPings (stats this) + (if is_rejected r then 1 else 0)
      /\ successfulPings (stats (performSelfPing this now r))
         = successfulPings (stats this) + (if is_ok_200 r then 1 else 0))
  /\ totalPings (stats (ticks l this))
     = totalPings (stats this) + Z.of_nat (List.length l)
  /\ failedPings (stats (ticks l this))
     = failedPings (stats this) + count is_rejected l
  /\ successfulPings (stats (ticks l this))
     = successfulPings (stats this) + count is_ok_200 l
  /\ (forallb (fun p => is_rejected (snd p) || is_ok_200 (snd p)) l = true ->
      successfulPings (stats (ticks l this))
      = successfulPings (stats this)
        + (Z.of_nat (List.length l) - count is_rejected l)).
Proof.
  destruct (ticks_stats l this) as [T [F S]].
  split; [|repeat split; try assumption].
  - intros now r. destruct (performSelfPing_stats this now r) as [A [B [C [D _]]]].
    repeat split; assumption.
  - intros H. rewrite S, (count_split l H). reflexivity.
Qed.

(** C7, on two ticks answered with status 200 around a rejected one. *)
Lemma ticks_counters_witness :
  successfulPings
    (stats (ticks [(1000, Resolved 200); (2000, Rejected Doubles.timeout_error);
                   (3000, Resolved 200)]
              (constructor Doubles.production 0)))
  = 0 + (3 - 1).
Proof.
  exact (proj2 (proj2 (proj2 (proj2
    (ticks_counters (constructor Doubles.production 0)
       [(1000, Resolved 200); (2000, Rejected Doubles.timeout_error);
        (3000, Resolved 200)])))) eq_refl).
Defined.

(** A tick whose request resolves with status 204 adds to neither
    [successfulPings] nor [failedPings]: it is not true that every tick adds
    one to exactly one of the two. *)
Lemma performSelfPing_not_exactly_one :
  ~ (forall (this : t) (now : Z) (r : PingResult),
       (successfulPings (stats (performSelfPing this now r))
          = successfulPings (stats this) + 1
        /\ failedPings (stats (performSelfPing this now r))
           = failedPings (stats this))
       \/ (successfulPings (stats (performSelfPing this now r))
             = successfulPings (stats this)
           /\ failedPings (stats (performSelfPing this now r))
              = failedPings (stats this) + 1)).
Proof.
  intros H.
  destruct (H (constructor Doubles.production 0) 1000 (Resolved 204))
    as [[A _]|[_ B]]; [cbn in A | cbn in B]; discriminate.
Qed.

Lemma starts_timers (n : nat) (this : t) :
  enabled this = true ->
  forall timers : Timers,
  List.length (cron_jobs (starts n this timers))
    = (n + List.length (cron_jobs timers))%nat
  /\ List.length (timeouts (starts n this timers))
     = (n + List.length (timeouts timers))%nat.
Proof.
  intros He. induction n as [|n IH]; intros timers; [now split|].
  cbn [starts]. destruct (IH (start this timers)) as [C T].
  rewrite C, T. unfold start. rewrite He. cbn [negb cron_jobs timeouts].
  rewrite !length_app. cbn [List.length]. split; lia.
Qed.

Lemma fire_total (jobs : list (string * Callback)) (now : Z) :
  forall (results : list PingResult) (this : t),
  totalPings (stats (fire jobs now results this))
  = totalPings (stats this) + Z.of_nat (List.length jobs).
Proof.
  induction jobs as [|[e cb] jobs IH]; intros results this.
  - cbn. lia.
  - cbn [fire]. destruct cb.
    destruct results as [|r results]; rewrite IH; cbn [run];
      match goal with
      | |- context [performSelfPing this now ?r] =>
          destruct (performSelfPing_stats this now r) as [-> _]
      end; cbn [List.length]; lia.
Qed.

(** C8. Outside production [start] does nothing, and only there is a second
    call without effect.  In production every call of [start] registers one
    more schedule at every fourteenth minute and one more timeout of five
    seconds; after [n] calls there are [n] more of each, and one firing of
    the cron minute runs as many self-checks as there are schedules. *)
Theorem start_registers_timers (this : t) (timers : Timers) :
  (enabled this = false -> start this timers = timers)
  /\ (enabled this = true ->
      cron_jobs (start this timers)
        = (cron_jobs timers ++ [("*/14 * * * *"%string, PerformSelfPing)])%list
      /\ timeouts (start this timers)
         = (timeouts timers ++ [(5000, PerformSelfPing)])%list)
  /\ (forall n : nat, enabled this = true ->
      List.length (cron_jobs (starts n this timers))
        = (n + List.length (cron_jobs timers))%nat
      /\ List.length (timeouts (starts n this timers))
         = (n + List.length (timeouts timers))%nat)
  /\ (forall (n : nat) (now : Z) (results : list PingResult),
      enabled this = true ->
      totalPings (stats (fire (cron_jobs (starts n this no_timers)) now results this))
      = totalPings (stats this) + Z.of_nat n).
Proof.
  repeat split.
  - intros H. unfold start. now rewrite H.
  - unfold start. now rewrite H.
  - unfold start. now rewrite H.
  - now apply starts_timers.
  - now apply starts_timers.
  - intros n now results H. rewrite fire_total.
    destruct (starts_timers n this H no_timers) as [-> _].
    cbn [no_timers cron_jobs List.length]. now rewrite Nat.add_0_r.
Qed.

(** C8, in production: two calls, two schedules, two self-checks a firing. *)
Lemma start_registers_timers_witness :
  List.length (cron_jobs (starts 2 (constructor Doubles.production 0) no_timers))
    = (2 + 0)%nat
  /\ totalPings
       (stats (fire (cron_jobs (starts 2 (constructor Doubles.production 0) no_timers))
                 1000 [Resolved 200; Resolved 200]
                 (constructor Doubles.production 0)))
     = 0 + 2.
Proof.
  split.
  - exact (proj1 (proj1 (proj2 (proj2
      (start_registers_timers (constructor Doubles.production 0) no_timers)))
      2%nat eq_refl)).
  - exact (proj2 (proj2 (proj2
      (start_registers_timers (constructor Doubles.production 0) no_timers)))
      2%nat 1000 [Resolved 200; Resolved 200] eq_refl).
Defined.

(** In production a second call of [start] is not without effect. *)
Lemma start_not_idempotent :
  ~ (forall (this : t) (timers : Timers),
       start this (start this timers) = start this timers).
Proof.
  intros H.
  specialize (H (constructor Doubles.production 0) no_timers).
  apply (f_equal (fun ts => List.length (cron_jobs ts))) in H.
  cbn in H. discriminate.
Qed.

End KeepAlive.

(** * Further properties of the code *)

(** ** The sanitizer and the review request page *)

Section SanitizerMore.

Lemma escape_chars_app (a b : string) :
  escape_chars (a ++ b) = escape_chars a ++ escape_chars b.
Proof.
  induction a as [|c a IH]; [reflexivity|].
  cbn [append escape_chars]. now rewrite IH, append_assoc.
Qed.

(** X1. Escaping distributes over concatenation: escaping two texts and
    joining them gives the escaped joined text. *)
Theorem escapeHtml_app (a b : string) :
  escapeHtml (a ++ b) = escapeHtml a ++ escapeHtml b.
Proof. rewrite !escapeHtml_escape_chars. apply escape_chars_app. Qed.

Lemma escape_char_inj (a b : ascii) (A B : string) :
  escape_char a ++ A = escape_char b ++ B -> a = b /\ A = B.
Proof.
  unfold escape_char, dq_char.
  destruct (Ascii.eqb_spec a "&") as [->|Ha1];
    [|destruct (Ascii.eqb_spec a "<") as [->|Ha2];
      [|destruct (Ascii.eqb_spec a ">") as [->|Ha3];
        [|destruct (Ascii.eqb_spec a "034") as [->|Ha4];
          [|destruct (Ascii.eqb_spec a "'") as [->|Ha5]]]]];
  (destruct (Ascii.eqb_spec b "&") as [->|Hb1];
    [|destruct (Ascii.eqb_spec b "<") as [->|Hb2];
      [|destruct (Ascii.eqb_spec b ">") as [->|Hb3];
        [|destruct (Ascii.eqb_spec b "034") as [->|Hb4];
          [|destruct (Ascii.eqb_spec b "'") as [->|Hb5]]]]]);
  cbn [append]; intros H; try discriminate H;
  try (injection H as H; subst; first [contradiction | now split]);
  try (injection H as ->; now split).
Qed.

(** X2. Escaping loses nothing: two texts with the same escaped form are the
    same text. *)
Theorem escapeHtml_injective (a b : string) :
  escapeHtml a = escapeHtml b -> a = b.
Proof.
  rewrite !escapeHtml_escape_chars.
  revert b; induction a as [|x a IH]; intros [|y b] H.
  - reflexivity.
  - exfalso. cbn [escape_chars] in H. unfold escape_char in H.
    repeat (destruct (_ =? _)%char in H; [discriminate H|]). discriminate H.
  - exfalso. cbn [escape_chars] in H. unfold escape_char in H.
    repeat (destruct (_ =? _)%char in H; [discriminate H|]). discriminate H.
  - cbn [escape_chars] in H. apply escape_char_inj in H as [-> H].
    f_equal. exact (IH _ H).
Qed.

Lemma escapeHtml_injective_witness : "a<b" = "a<b".
Proof. exact (escapeHtml_injective "a<b" "a<b" eq_refl). Defined.

(** The decimal form of a number holds digits and at most a minus sign. *)
Lemma count_char_uint (c : ascii) (d : Decimal.uint) :
  In c ["<"; ">"; dq_char; "'"; "&"]%char ->
  count_char c (NilEmpty.string_of_uint d) = 0.
Proof.
  intros Hc. unfold dq_char in Hc.
  induction d; cbn [NilEmpty.string_of_uint count_char]; try rewrite IHd;
    simpl in Hc; decompose [or] Hc; subst; try reflexivity; contradiction.
Qed.

Lemma count_char_Z_to_string (c : ascii) (z : Z) :
  In c ["<"; ">"; dq_char; "'"; "&"]%char ->
  count_char c (Z_to_string z) = 0.
Proof.
  intros Hc. unfold Z_to_string, NilZero.string_of_int.
  assert (U : forall d, count_char c (NilZero.string_of_uint d) = 0).
  { intros d. unfold NilZero.string_of_uint.
    destruct d; try apply (count_char_uint c _ Hc).
    unfold dq_char in Hc. simpl in Hc; decompose [or] Hc; subst;
      try reflexivity; contradiction. }
  destruct (Z.to_int z) as [d|d]; [apply U|].
  cbn [count_char]. rewrite U.
  unfold dq_char in Hc. simpl in Hc; decompose [or] Hc; subst;
    try reflexivity; contradiction.
Qed.

Lemma count_char_escapeHtml (c : ascii) (s : string) :
  In c ["<"; ">"; dq_char; "'"]%char -> count_char c (escapeHtml s) = 0.
Proof.
  intros Hc. pose proof (escapeHtml_clean c s Hc) as H.
  induction (escapeHtml s) as [|a t IH]; [reflexivity|].
  cbn [occurs count_char] in *. apply orb_false_elim in H as [Ha Ht].
  now rewrite Ha, (IH Ht).
Qed.

Lemma count_char_concat_ext (c : ascii) (sep : string) (ls ls' : list string) :
  Forall2 (fun x y => count_char c x = count_char c y) ls ls' ->
  count_char c (String.concat sep ls) = count_char c (String.concat sep ls').
Proof.
  induction 1 as [|x y xs ys Hxy Hall IH]; [reflexivity|].
  cbn [String.concat]. destruct Hall as [|x2 y2 xs2 ys2 H2 Hall2]; [exact Hxy|].
  rewrite !count_char_app, Hxy. f_equal. f_equal. exact IH.
Qed.

(** X3. The customer's name, the business name and the review link add no
    markup character to the page: the number of less-than signs, greater-than
    signs, double quotes and apostrophes of the page depends on the button
    text only, whatever these three fields and the year. *)
Theorem generateReviewRequestHtml_markup_count (c : ascii) (year year' : Z)
    (o o' : Options) :
  In c ["<"; ">"; dq_char; "'"]%char ->
  buttonTextOf o = buttonTextOf o' ->
  count_char c (generateReviewRequestHtml year o)
  = count_char c (generateReviewRequestHtml year' o').
Proof.
  intros Hc Hb.
  assert (Hc' : In c ["<"; ">"; dq_char; "'"; "&"]%char)
    by (simpl in *; tauto).
  unfold generateReviewRequestHtml. rewrite Hb.
  apply count_char_concat_ext.
  repeat (apply Forall2_cons;
    [ first [ reflexivity
            | rewrite !count_char_app, !(count_char_escapeHtml c),
                ?(count_char_Z_to_string c) by assumption; reflexivity ] | ]).
  apply Forall2_nil.
Qed.

Lemma generateReviewRequestHtml_markup_count_witness :
  count_char "<"
    (generateReviewRequestHtml 2025
       {| EmailTemplates.customerName := "<script>";
          EmailTemplates.businessName := "A<B";
          EmailTemplates.reviewLink := "https://g.co/r?<";
          EmailTemplates.customData := None |})
  = count_char "<"
      (generateReviewRequestHtml 1999
         {| EmailTemplates.customerName := "Jane";
            EmailTemplates.businessName := "Acme";
            EmailTemplates.reviewLink := "https://g.co/r";
            EmailTemplates.customData :=
              Some {| buttonText := Some ""; messageTemplate := None |} |}).
Proof.
  apply generateReviewRequestHtml_markup_count; [simpl; tauto | reflexivity].
Defined.

End SanitizerMore.

(** ** The email service beyond the failing call *)

Section EmailServiceMore.

Import Facts.
Context (R : Remote).

Lemma key_of_none (this : EmailService.t) :
  key_of this = None -> truthy (EmailService.apiKey this) = false.
Proof.
  unfold key_of, truthy. destruct (EmailService.apiKey this) as [k|]; [|reflexivity].
  destruct (k =? ""); [reflexivity | discriminate].
Qed.

(** What [sendEmail] does with a key, whatever the provider answers. *)
Lemma sendEmail_with_key (this : EmailService.t) (key : string)
    (d : Resend.EmailData) (w : World) :
  key_of this = Some key ->
  exists lines,
    EmailService.sendEmail R this d w =
      (match resend_answer R (calls w) d with
       | Normal r => Normal (data r)
       | Abrupt e => Abrupt (thrown_for e)
       end,
       logged (called w [resend_call key d]) lines)
    /\ lines = match resend_answer R (calls w) d with
               | Normal _ => []
               | Abrupt e =>
                   match response e with
                   | Some r =>
                       [(LError, "Resend API error: " ++ Z_to_string (status r)
                                 ++ " - " ++ JSON_stringify R (data r))]
                   | None =>
                       if request e
                       then [(LError, "No response received from Resend API")]
                       else [(LError, "Email request setup error: " ++ message e)]
                   end
               end.
Proof.
  unfold key_of. intros Hk. unfold EmailService.sendEmail.
  destruct (EmailService.apiKey this) as [k|]; [|discriminate].
  destruct (String.eqb_spec k "") as [E|E]; [discriminate|].
  injection Hk as Hk. subst k.
  unfold try_catch, bind, axios_post, thrown_for, logged, called, resend_call.
  destruct (resend_answer R (calls w) d) as [r|e].
  - eexists. split; [|reflexivity]. cbn [ret calls logs clock_year].
    now rewrite app_nil_r.
  - destruct e as [m [[st [| |b]]|] [|]];
      cbn [response request message data status read_message];
      (eexists; split; [reflexivity | reflexivity]).
Qed.

(** X4. [sendEmail] makes one call to the provider when the service has a
    key and none otherwise, whatever the provider answers: the call goes to
    the provider's address with the key as bearer token and a timeout of ten
    seconds, and it is never made again.  It writes at most one line to
    the log, and none when it returns. *)
Theorem sendEmail_single_attempt (this : EmailService.t)
    (emailData : Resend.EmailData) (w : World) :
  calls (snd (EmailService.sendEmail R this emailData w))
  = (calls w ++ match key_of this with
                | Some key => [resend_call key emailData]
                | None => []
                end)%list
  /\ (exists lines,
        logs (snd (EmailService.sendEmail R this emailData w))
        = (logs w ++ lines)%list
        /\ (List.length lines <= 1)%nat
        /\ forall a, fst (EmailService.sendEmail R this emailData w) = Normal a ->
                     lines = [])
  /\ clock_year (snd (EmailService.sendEmail R this emailData w)) = clock_year w.
Proof.
  destruct (key_of this) as [key|] eqn:Hk.
  - destruct (sendEmail_with_key this key emailData w Hk) as [lines [-> Hl]].
    cbn [fst snd logged called calls logs clock_year].
    split; [reflexivity|]. split; [|reflexivity].
    exists lines. split; [reflexivity|]. subst lines.
    destruct (resend_answer R (calls w) emailData) as [r|e].
    + split; [cbn; lia | reflexivity].
    + split; [|discriminate].
      destruct (response e); [cbn; lia|]. destruct (request e); cbn; lia.
  - rewrite (sendEmail_unconfigured R this emailData w (key_of_none this Hk)).
    cbn [fst snd calls logs clock_year].
    split; [now rewrite app_nil_r|]. split; [|reflexivity].
    eexists. split; [reflexivity|]. split; [cbn; lia | discriminate].
Qed.

(** X5. With a key, [sendEmail] returns the body of the provider's answer
    unchanged when the provider answers, and throws otherwise; it returns
    only then. *)
Theorem sendEmail_returns_provider_data (this : EmailService.t)
    (emailData : Resend.EmailData) (w : World) (a : ResponseBody) :
  fst (EmailService.sendEmail R this emailData w) = Normal a <->
  (key_of this <> None
   /\ exists r, resend_answer R (calls w) emailData = Normal r /\ a = data r).
Proof.
  destruct (key_of this) as [key|] eqn:Hk.
  - destruct (sendEmail_with_key this key emailData w Hk) as [lines [-> _]].
    cbn [fst]. destruct (resend_answer R (calls w) emailData) as [r|e].
    + split.
      * intros H; injection H as <-. split; [discriminate|]. now exists r.
      * intros [_ [r' [H ->]]]. now injection H as ->.
    + split; [discriminate|]. intros [_ [r' [H _]]]. discriminate H.
  - rewrite (sendEmail_unconfigured R this emailData w (key_of_none this Hk)).
    cbn [fst]. split; [discriminate|]. intros [H _]. contradiction.
Qed.

End EmailServiceMore.

Section EmailRequestMore.

Import Facts.
Context (V : Validators) (R : Remote).

Lemma sendReviewRequest_sendEmail (this : EmailService.t)
    (o : EmailService.ReviewRequest) (w : World) :
  fst (EmailService.sendReviewRequest R this o w)
  = fst (EmailService.sendEmail R this
           (review_request_payload this o (clock_year w)) w)
  /\ calls (snd (EmailService.sendReviewRequest R this o w))
     = calls (snd (EmailService.sendEmail R this
                     (review_request_payload this o (clock_year w)) w)).
Proof.
  unfold EmailService.sendReviewRequest.
  unfold try_catch, bind, log, getFullYear. cbv beta iota zeta.
  change (review_request_payload this o (clock_year w)) with
    {| Resend.from :=
         EmailService.fromName this ++ " <" ++ EmailService.fromEmail this ++ ">";
       Resend.to := EmailService.toEmail o;
       Resend.subject :=
         "We'd love to hear your feedback on " ++ EmailService.businessName o;
       Resend.html :=
         generateReviewRequestHtml (clock_year w)
           {| EmailTemplates.customerName := EmailService.customerName o;
              EmailTemplates.businessName := EmailService.businessName o;
              EmailTemplates.reviewLink := EmailService.reviewLink o;
              EmailTemplates.customData := EmailService.customData o |};
       Resend.tags := [("type", "review_request");
                       ("business", EmailService.businessName o)];
       Resend.reply_to :=
         if truthy (EmailService.replyTo o) then EmailService.replyTo o
         else None |}.
  cbn [clock_year].
  set (d := {| Resend.from := _ |}).
  destruct (key_of this) as [key|] eqn:Hk.
  - destruct (sendEmail_with_key R this key d w Hk) as [l1 [-> _]].
    match goal with
    | |- context [EmailService.sendEmail R this d ?w1] =>
        destruct (sendEmail_with_key R this key d w1 Hk) as [l2 [-> _]]
    end.
    cbn [calls]. destruct (resend_answer R (calls w) d); split; reflexivity.
  - rewrite !(sendEmail_unconfigured R this d) by (now apply key_of_none).
    split; reflexivity.
Qed.

(** X6. The review request operation adds nothing to [sendEmail] but its log
    lines: it returns what [sendEmail] returns and throws what [sendEmail]
    throws for the payload it builds, and it makes the same calls.  The
    payload is addressed to the recipient, carries the subject with the
    business name, the page of the request and the two tags, and a
    reply-to address only when one is given and not empty. *)
Theorem sendReviewRequest_via_sendEmail (this : EmailService.t)
    (o : EmailService.ReviewRequest) (w : World) :
  fst (EmailService.sendReviewRequest R this o w)
  = fst (EmailService.sendEmail R this
           (review_request_payload this o (clock_year w)) w)
  /\ calls (snd (EmailService.sendReviewRequest R this o w))
     = calls (snd (EmailService.sendEmail R this
                     (review_request_payload this o (clock_year w)) w)).
Proof. apply sendReviewRequest_sendEmail. Qed.

End EmailRequestMore.

(** ** The SMS service *)

Section SmsServiceMore.

Import Facts.
Context (V : Validators) (R : Remote).

Lemma sms_sendReviewRequest_call (this : SmsService.t)
    (s a n : string) (o : SmsService.ReviewRequest) (w : World) :
  SmsService.configured this = Some (s, a, n) ->
  fst (SmsService.sendReviewRequest R this o w)
  = match twilio_answer R (calls w) (review_request_sms n o) with
    | Normal m => Normal (sms_result m)
    | Abrupt e => Abrupt e
    end
  /\ calls (snd (SmsService.sendReviewRequest R this o w))
     = (calls w ++ [TwilioCreate s a (review_request_sms n o)])%list.
Proof.
  intros H. unfold SmsService.sendReviewRequest. rewrite H.
  unfold try_catch, bind, log, messages_create. cbv beta iota zeta.
  cbn [calls]. fold (review_request_sms n o).
  destruct (twilio_answer R (calls w) (review_request_sms n o));
    cbn [fst snd calls ret throw]; split; reflexivity.
Qed.

(** X8. With client and sender number, the SMS review request makes one call
    to the Twilio client, from the sender number to the recipient with the
    generated message as body; it returns the sid and status of the message
    instance, and when the call fails it throws the error of the client
    itself, not a rewritten one. *)
Theorem sms_sendReviewRequest_configured (this : SmsService.t)
    (s a n : string) (o : SmsService.ReviewRequest) (w : World) :
  SmsService.configured this = Some (s, a, n) ->
  fst (SmsService.sendReviewRequest R this o w)
  = match twilio_answer R (calls w) (review_request_sms n o) with
    | Normal m => Normal (sms_result m)
    | Abrupt e => Abrupt e
    end
  /\ calls (snd (SmsService.sendReviewRequest R this o w))
     = (calls w ++ [TwilioCreate s a (review_request_sms n o)])%list.
Proof. apply sms_sendReviewRequest_call. Qed.

(** X9. With client and sender number, the SMS test makes one call with the
    same fixed text for every recipient, returns the sid and status of the
    message instance, and throws the client's own error when the call
    fails. *)
Theorem sendTestSms_configured (this : SmsService.t)
    (s a n : string) (phoneNumber : string) (w : World) :
  SmsService.configured this = Some (s, a, n) ->
  fst (SmsService.sendTestSms R this phoneNumber w)
  = match twilio_answer R (calls w) (test_sms n phoneNumber) with
    | Normal m => Normal (sms_result m)
    | Abrupt e => Abrupt e
    end
  /\ calls (snd (SmsService.sendTestSms R this phoneNumber w))
     = (calls w ++ [TwilioCreate s a (test_sms n phoneNumber)])%list.
Proof.
  intros H. unfold SmsService.sendTestSms. rewrite H.
  unfold try_catch, bind, log, messages_create. cbv beta iota zeta.
  cbn [calls]. fold (test_sms n phoneNumber).
  destruct (twilio_answer R (calls w) (test_sms n phoneNumber));
    cbn [fst snd calls ret throw]; split; reflexivity.
Qed.

(** X10. The SMS constructor makes no call; it logs one error line when a
    credential is missing and one warning when the sender number is.  It
    calls the factory of the Twilio library only when both credentials are
    set and not empty, and it throws only when the factory refuses them,
    with the error of the factory.  Otherwise the service it builds is
    configured exactly when the three Twilio variables are set and not
    empty, and then with their values. *)
Theorem sms_constructor_configured (env : Env) (w : World) :
  calls (snd (SmsService.constructor R env w)) = calls w
  /\ logs (snd (SmsService.constructor R env w))
     = (logs w
        ++ (if truthy (TWILIO_ACCOUNT_SID env) && truthy (TWILIO_AUTH_TOKEN env)
            then []
            else [(LError, "TWILIO_ACCOUNT_SID or TWILIO_AUTH_TOKEN is missing. SMS functionality will not work.")])
        ++ (if truthy (TWILIO_PHONE_NUMBER env) then []
            else [(LWarn, "TWILIO_PHONE_NUMBER is missing. SMS functionality will not work.")]))%list
  /\ match (if truthy (TWILIO_ACCOUNT_SID env) && truthy (TWILIO_AUTH_TOKEN env)
            then twilio R (toString (TWILIO_ACCOUNT_SID env))
                   (toString (TWILIO_AUTH_TOKEN env))
            else None)
     with
     | Some refused =>
         fst (SmsService.constructor R env w) = Abrupt refused
     | None =>
         exists this,
           fst (SmsService.constructor R env w) = Normal this
           /\ SmsService.configured this
              = (if truthy (TWILIO_ACCOUNT_SID env)
                    && truthy (TWILIO_AUTH_TOKEN env)
                    && truthy (TWILIO_PHONE_NUMBER env)
                 then Some (toString (TWILIO_ACCOUNT_SID env),
                            toString (TWILIO_AUTH_TOKEN env),
                            toString (TWILIO_PHONE_NUMBER env))
                 else None)
     end.
Proof.
  unfold SmsService.constructor, SmsService.new_client, SmsService.configured.
  destruct (TWILIO_ACCOUNT_SID env) as [s|], (TWILIO_AUTH_TOKEN env) as [a|],
           (TWILIO_PHONE_NUMBER env) as [n|];
    cbn [truthy toString andb negb];
    repeat match goal with
           | |- context [(?x =? "")%string] =>
               is_var x; destruct (String.eqb_spec x "") as [->|?]
           end;
    cbn [negb andb]; unfold bind, log, ret, throw;
    try destruct (twilio R s a) as [refused|];
    cbn [fst snd calls logs];
    rewrite ?app_nil_r, <- ?app_assoc;
    (split; [reflexivity|]); (split; [reflexivity|]);
    try reflexivity;
    eexists; (split; [reflexivity|]);
    cbn [SmsService.client SmsService.fromNumber];
    repeat match goal with
           | H : ?x <> "" |- context [(?x =? "")%string] =>
               rewrite (proj2 (String.eqb_neq x "") H)
           end;
    reflexivity.
Qed.

End SmsServiceMore.

(** ** The email service: construction and the test email *)

Section EmailWrappersMore.

Import Facts.
Context (V : Validators) (R : Remote).

(** Lines logged before [sendEmail] runs change neither its result nor the
    calls it makes. *)
Lemma sendEmail_after_log (this : EmailService.t) (d : Resend.EmailData)
    (w : World) (lines : list (Level * string)) :
  fst (EmailService.sendEmail R this d (logged w lines))
  = fst (EmailService.sendEmail R this d w)
  /\ calls (snd (EmailService.sendEmail R this d (logged w lines)))
     = calls (snd (EmailService.sendEmail R this d w)).
Proof.
  destruct (key_of this) as [key|] eqn:Hk.
  - destruct (sendEmail_with_key R this key d w Hk) as [l1 [-> _]].
    destruct (sendEmail_with_key R this key d (logged w lines) Hk) as [l2 [-> _]].
    cbn [logged calls]. destruct (resend_answer R (calls w) d); split; reflexivity.
  - rewrite !(sendEmail_unconfigured R this d) by (now apply key_of_none).
    split; reflexivity.
Qed.

(** A wrapper that logs, runs a computation, logs again and, on an error,
    logs and throws it again: result and calls are the computation's. *)
Lemma logging_wrapper {A} (m : Eff A) (before : Level * string)
    (after : A -> Level * string) (failed : JsError -> Level * string)
    (w : World) :
  let wrapped :=
    try_catch
      (log (fst before) (snd before) ;;;
       (response <- m ;;
        log (fst (after response)) (snd (after response)) ;;;
        ret response))
      (fun error => log (fst (failed error)) (snd (failed error)) ;;; throw error) in
  fst (wrapped w) = fst (m (logged w [before]))
  /\ calls (snd (wrapped w)) = calls (snd (m (logged w [before]))).
Proof.
  cbv zeta. unfold try_catch, bind, log. cbv beta iota.
  destruct before as [l0 s0]. cbn [fst snd]. unfold logged.
  destruct (m _) as [[a|e] w']; cbn [fst snd calls ret throw]; split; reflexivity.
Qed.

(** X12. The email constructor never throws and makes no call; the sender
    address and the sender name of the service it builds are never empty,
    the service has a key exactly when RESEND_API_KEY is set and not
    empty, and one line is logged for each of the three variables that is
    missing or empty. *)
Theorem email_constructor_defaults (env : Env) (w : World) :
  exists this,
    fst (EmailService.constructor env w) = Normal this
    /\ calls (snd (EmailService.constructor env w)) = calls w
    /\ EmailService.fromEmail this <> ""
    /\ EmailService.fromName this <> ""
    /\ key_of this
       = (if truthy (RESEND_API_KEY env) then RESEND_API_KEY env else None)
    /\ List.length (logs (snd (EmailService.constructor env w)))
       = List.length (logs w)
         + falsy_count [RESEND_API_KEY env; EMAIL_FROM_ADDRESS env;
                        EMAIL_FROM_NAME env].
Proof.
  unfold EmailService.constructor, key_of, falsy_count.
  destruct (RESEND_API_KEY env) as [k|], (EMAIL_FROM_ADDRESS env) as [a|],
           (EMAIL_FROM_NAME env) as [n|];
    cbn [truthy js_or filter];
    repeat match goal with
           | |- context [(?x =? "")%string] =>
               is_var x; destruct (String.eqb_spec x "") as [->|?]
           end;
    cbn [negb List.length]; unfold bind, log, ret; cbn [fst snd calls logs];
    eexists; (split; [reflexivity|]);
    cbn [EmailService.fromEmail EmailService.fromName EmailService.apiKey];
    rewrite ?String.eqb_refl;
    repeat match goal with
           | H : ?x <> "" |- context [(?x =? "")%string] =>
               rewrite (proj2 (String.eqb_neq x "") H)
           end;
    rewrite ?length_app; cbn [List.length];
    repeat split; try assumption; try discriminate; try reflexivity; lia.
Qed.

(** X13. The test email operation returns what [sendEmail] returns and
    throws what [sendEmail] throws for its payload, with the same calls; the
    payload has the fixed subject and the single tag of the test, the test
    page, and no reply-to address. *)
Theorem sendTestEmail_via_sendEmail (this : EmailService.t)
    (sent toEmail : string) (w : World) :
  fst (TestEmail.sendTestEmail R this sent toEmail w)
  = fst (EmailService.sendEmail R this
           (test_email_payload this sent toEmail (clock_year w)) w)
  /\ calls (snd (TestEmail.sendTestEmail R this sent toEmail w))
     = calls (snd (EmailService.sendEmail R this
                     (test_email_payload this sent toEmail (clock_year w)) w)).
Proof.
  destruct (sendEmail_after_log this
              (test_email_payload this sent toEmail (clock_year w)) w
              [(LInfo, "Sending test email to " ++ toEmail)]) as [F C].
  rewrite <- F, <- C.
  exact (logging_wrapper
           (fun w1 => EmailService.sendEmail R this
                        (test_email_payload this sent toEmail (clock_year w1)) w1)
           (LInfo, "Sending test email to " ++ toEmail)
           (fun _ => (LInfo, "Test email sent successfully to " ++ toEmail))
           (fun error => (LError, "Failed to send test email: " ++ message error))
           w).
Qed.

End EmailWrappersMore.

(** ** The handlers *)

Section HandlersMore.

Import Facts.
Context (V : Validators) (R : Remote).

(** A handler whose [catch] hands the error to [next] ends normally. *)
Lemma next_on_error (m : Eff Outcome) (w : World) :
  fst (try_catch m (fun error => ret (Next error)) w)
  = Normal match fst (m w) with
           | Normal out => out
           | Abrupt e => Next e
           end.
Proof.
  unfold try_catch, ret. destruct (m w) as [[out|e] w']; reflexivity.
Qed.

(** X14. The two test routes validate before they send: a recipient that
    is not an email address, or a number that is not a mobile phone number,
    is answered with status 400 and the one error that names the field and
    carries its value, and the world is left as it was: no call, no log
    line. *)
Theorem test_routes_invalid (emailService : EmailService.t)
    (smsService : SmsService.t) (sent : string) (v : option string) (w : World) :
  (isEmail V (toString v) = false ->
   TestRoutes.email_test V R emailService sent v w
   = (Normal (Responded 400 false
                (Errors [{| path := "toEmail";
                            msg := "Valid email address required";
                            value := v |}])), w))
  /\ (isMobilePhone V (toString v) = false ->
      TestRoutes.sms_test V R smsService v w
      = (Normal (Responded 400 false
                   (Errors [{| path := "phoneNumber";
                               msg := "Valid phone number required";
                               value := v |}])), w)).
Proof.
  split; intros H.
  - unfold TestRoutes.email_test, TestRoutes.email_test_errors, check.
    rewrite H. reflexivity.
  - unfold TestRoutes.sms_test, TestRoutes.sms_test_errors, check.
    rewrite H. reflexivity.
Qed.

(** X15. None of the four handlers with a [next] throws: each ends with a
    response or with an error handed to [next], and it answers with status
    400 and the list of validation errors exactly when that list is not
    empty. *)
Theorem handlers_never_throw (emailService : EmailService.t)
    (smsService : SmsService.t) (eb : EmailRoutes.Body) (sb : SmsRoutes.Body)
    (sent : string) (toEmail phoneNumber : option string) (w : World) :
  (exists out,
     fst (EmailRoutes.review_request V R emailService eb w) = Normal out
     /\ (EmailRoutes.review_request_errors V eb <> []
         <-> out = Responded 400 false
                     (Errors (EmailRoutes.review_request_errors V eb))))
  /\ (exists out,
        fst (SmsRoutes.review_request V R smsService sb w) = Normal out
        /\ (SmsRoutes.review_request_errors V sb <> []
            <-> out = Responded 400 false
                        (Errors (SmsRoutes.review_request_errors V sb))))
  /\ (exists out,
        fst (TestRoutes.email_test V R emailService sent toEmail w) = Normal out
        /\ (TestRoutes.email_test_errors V toEmail <> []
            <-> out = Responded 400 false
                        (Errors (TestRoutes.email_test_errors V toEmail))))
  /\ (exists out,
        fst (TestRoutes.sms_test V R smsService phoneNumber w) = Normal out
        /\ (TestRoutes.sms_test_errors V phoneNumber <> []
            <-> out = Responded 400 false
                        (Errors (TestRoutes.sms_test_errors V phoneNumber)))).
Proof.
  repeat split.
  - unfold EmailRoutes.review_request. rewrite next_on_error.
    destruct (EmailRoutes.review_request_errors V eb) as [|e es].
    + unfold bind. destruct (EmailService.sendReviewRequest R _ _ w) as [[a|e] w'];
        cbn [fst ret]; eexists; (split; [reflexivity|]);
        (split; [intros H; now elim H | discriminate]).
    + cbn [fst ret]. eexists. split; [reflexivity|]. split; [reflexivity|discriminate].
  - unfold SmsRoutes.review_request. rewrite next_on_error.
    destruct (SmsRoutes.review_request_errors V sb) as [|e es].
    + unfold bind. destruct (SmsService.sendReviewRequest R _ _ w) as [[a|e] w'];
        cbn [fst ret]; eexists; (split; [reflexivity|]);
        (split; [intros H; now elim H | discriminate]).
    + cbn [fst ret]. eexists. split; [reflexivity|]. split; [reflexivity|discriminate].
  - unfold TestRoutes.email_test. rewrite next_on_error.
    destruct (TestRoutes.email_test_errors V toEmail) as [|e es].
    + unfold bind. destruct (TestEmail.sendTestEmail R _ _ _ w) as [[a|e] w'];
        cbn [fst ret]; eexists; (split; [reflexivity|]);
        (split; [intros H; now elim H | discriminate]).
    + cbn [fst ret]. eexists. split; [reflexivity|]. split; [reflexivity|discriminate].
  - unfold TestRoutes.sms_test. rewrite next_on_error.
    destruct (TestRoutes.sms_test_errors V phoneNumber) as [|e es].
    + unfold bind. destruct (SmsService.sendTestSms R _ _ w) as [[a|e] w'];
        cbn [fst ret]; eexists; (split; [reflexivity|]);
        (split; [intros H; now elim H | discriminate]).
    + cbn [fst ret]. eexists. split; [reflexivity|]. split; [reflexivity|discriminate].
Qed.

End HandlersMore.

(** X8, on a client that answers. *)
Lemma sms_sendReviewRequest_configured_witness :
  fst (SmsService.sendReviewRequest Facts.answering Facts.sms_ready
         (Facts.sms_request_of Facts.good_sms_body) Doubles.world0)
  = Normal {| Twilio.sid := "SM1"; Twilio.status := "queued" |}.
Proof.
  exact (proj1 (sms_sendReviewRequest_configured Facts.answering Facts.sms_ready
                  "AC1" "tok" "+15550000"
                  (Facts.sms_request_of Facts.good_sms_body) Doubles.world0
                  eq_refl)).
Defined.

(** X9, on a client that fails: the error of the client comes back as it
    is. *)
Lemma sendTestSms_configured_witness :
  fst (SmsService.sendTestSms Doubles.unreachable Facts.sms_ready "+15550100"
         Doubles.world0)
  = Abrupt Doubles.timeout_error.
Proof.
  exact (proj1 (sendTestSms_configured Doubles.unreachable Facts.sms_ready
                  "AC1" "tok" "+15550000" "+15550100" Doubles.world0 eq_refl)).
Defined.

(** X10, on a library that refuses an account identifier that does not
    start with the letters AC. *)
Lemma sms_constructor_configured_witness :
  fst (SmsService.constructor Facts.strict_twilio
         {| RESEND_API_KEY := None; EMAIL_FROM_ADDRESS := None;
            EMAIL_FROM_NAME := None;
            TWILIO_ACCOUNT_SID := Some "SK1"; TWILIO_AUTH_TOKEN := Some "tok";
            TWILIO_PHONE_NUMBER := Some "+15550000";
            RENDER_EXTERNAL_URL := None; NODE_ENV := None |} Doubles.world0)
  = Abrupt (new_Error "accountSid must start with AC").
Proof.
  exact (proj2 (proj2 (sms_constructor_configured Facts.strict_twilio
                         {| RESEND_API_KEY := None; EMAIL_FROM_ADDRESS := None;
                            EMAIL_FROM_NAME := None;
                            TWILIO_ACCOUNT_SID := Some "SK1";
                            TWILIO_AUTH_TOKEN := Some "tok";
                            TWILIO_PHONE_NUMBER := Some "+15550000";
                            RENDER_EXTERNAL_URL := None; NODE_ENV := None |}
                         Doubles.world0))).
Defined.

(** X14, on a recipient without at sign and a number without plus sign. *)
Lemma test_routes_invalid_witness :
  TestRoutes.email_test Doubles.validators Doubles.unreachable
    Doubles.email_with_key "1/1/2025" (Some "nobody") Doubles.world0
  = (Normal (Responded 400 false
               (Errors [{| path := "toEmail";
                           msg := "Valid email address required";
                           value := Some "nobody" |}])), Doubles.world0).
Proof.
  exact (proj1 (test_routes_invalid Doubles.validators Doubles.unreachable
                  Doubles.email_with_key Facts.sms_ready "1/1/2025"
                  (Some "nobody") Doubles.world0) eq_refl).
Defined.

(** ** The feedback notification *)

Section FeedbackMore.

Import Facts.
Import FeedbackService.
Context (V : Validators) (isRating : string -> bool) (R : Remote).

Local Open Scope Z_scope.

(** X16. The star row of a whole-number rating is five glyphs, the filled
    ones first: as many filled stars as the rating says, none below one and
    five from five on; an absent rating gives five empty stars. *)
Theorem starsHtml_whole_rating (z : Z) :
  starsHtml (Some (rating_of_Z z))
  = repeat_string filled_star (Z.to_nat (Z.max 0 (Z.min 5 z)))
    ++ repeat_string empty_star (5 - Z.to_nat (Z.max 0 (Z.min 5 z)))
  /\ starsHtml None = repeat_string empty_star 5.
Proof.
  split; [|reflexivity].
  assert (C : z <= 0 \/ z = 1 \/ z = 2 \/ z = 3 \/ z = 4 \/ 5 <= z) by lia.
  unfold starsHtml, rating_at_least, rating_of_Z. cbn [at_least fold_left].
  destruct C as [C | [-> | [-> | [-> | [-> | C]]]]]; try reflexivity.
  - replace (Z.max 0 (Z.min 5 z)) with 0 by lia.
    repeat match goal with
           | |- context [?i <=? z] => destruct (Z.leb_spec i z); [lia|]
           end.
    reflexivity.
  - replace (Z.max 0 (Z.min 5 z)) with 5 by lia.
    repeat match goal with
           | |- context [?i <=? z] => destruct (Z.leb_spec i z); [|lia]
           end.
    reflexivity.
Qed.

Lemma count_char_starsHtml (c : ascii) (r : option Rating) :
  In c ["<"; ">"; dq_char; "'"]%char -> count_char c (starsHtml r) = 0%nat.
Proof.
  intros Hc. unfold dq_char in Hc. unfold starsHtml. cbn [fold_left].
  simpl in Hc; decompose [or] Hc; subst; try contradiction;
    destruct (rating_at_least r 1), (rating_at_least r 2),
             (rating_at_least r 3), (rating_at_least r 4),
             (rating_at_least r 5); reflexivity.
Qed.

(** X17. The business name, the feedback text and the customer's name add
    no markup character to the feedback page, and the star row has none:
    the number of less-than signs, greater-than signs, double quotes and
    apostrophes of the page depends only on the text of the rating, which
    is printed as it is. *)
Theorem generateFeedbackEmailHtml_markup_count (c : ascii) (year year' : Z)
    (o o' : HtmlOptions) :
  In c ["<"; ">"; dq_char; "'"]%char ->
  rating_text (html_rating o) = rating_text (html_rating o') ->
  count_char c (generateFeedbackEmailHtml year o)
  = count_char c (generateFeedbackEmailHtml year' o').
Proof.
  intros Hc Hr.
  assert (Hc' : In c ["<"; ">"; dq_char; "'"; "&"]%char)
    by (simpl in *; tauto).
  unfold generateFeedbackEmailHtml. rewrite Hr.
  apply count_char_concat_ext.
  repeat (apply Forall2_cons;
    [ first [ reflexivity
            | rewrite !count_char_app, ?(count_char_escapeHtml c),
                ?(count_char_starsHtml c), ?(count_char_Z_to_string c)
                by assumption; reflexivity ] | ]).
  apply Forall2_nil.
Qed.

(** X18. The feedback notification returns what [sendEmail] returns and
    throws what [sendEmail] throws for its payload, with the same calls;
    the payload carries the rating in its subject and in a tag, with the
    business id.  With the rating absent the operation throws the type
    error of the missing [toString] before any call is made. *)
Theorem sendFeedbackNotification_via_sendEmail (emailService : EmailService.t)
    (o : Notification) (w : World) :
  match rating o with
  | Some r =>
      fst (sendFeedbackNotification R emailService o w)
      = fst (EmailService.sendEmail R emailService
               (feedback_payload emailService o r (clock_year w)) w)
      /\ calls (snd (sendFeedbackNotification R emailService o w))
         = calls (snd (EmailService.sendEmail R emailService
                         (feedback_payload emailService o r (clock_year w)) w))
  | None =>
      fst (sendFeedbackNotification R emailService o w)
      = Abrupt (new_Error "Cannot read properties of undefined (reading 'toString')")
      /\ calls (snd (sendFeedbackNotification R emailService o w)) = calls w
  end.
Proof.
  unfold sendFeedbackNotification.
  destruct (rating o) as [r|] eqn:Hr.
  - destruct (sendEmail_after_log R emailService
                (feedback_payload emailService o r (clock_year w)) w
                [(LInfo, ("Sending feedback notification to " ++ toEmail o
                          ++ " for business " ++ businessId o)%string)]) as [F C].
    rewrite <- F, <- C.
    exact (logging_wrapper
             (fun w1 => EmailService.sendEmail R emailService
                          (feedback_payload emailService o r (clock_year w1)) w1)
             (LInfo, ("Sending feedback notification to " ++ toEmail o
                      ++ " for business " ++ businessId o)%string)
             (fun _ => (LInfo, ("Feedback notification sent successfully to "
                                ++ toEmail o)%string))
             (fun error => (LError, ("Failed to send feedback notification: "
                                     ++ message error)%string))
             w).
  - unfold try_catch, bind, log, getFullYear, rating_toString, throw.
    cbn [fst snd calls]. split; reflexivity.
Qed.

End FeedbackMore.

Section FeedbackRouteMore.

Import Facts.
Context (V : Validators) (isRating : string -> bool) (R : Remote).

(** X19. The feedback route: a request that fails the validation is
    answered with status 400 and the errors, and the world is left as it
    was.  Past the validation, when the service returns, the answer is
    status 200 with the data of the provider; when the service throws, the
    [catch] block evaluates [logger], which the file does not declare, so
    the handler ends with the reference error and never sends its own
    status 500 answer. *)
Theorem feedback_notification_outcome (emailService : EmailService.t)
    (b : FeedbackRoutes.Body) (w : World) :
  (FeedbackRoutes.feedback_notification_errors V isRating b <> [] ->
   FeedbackRoutes.feedback_notification V isRating R emailService b w
   = (Normal (FeedbackRoutes.BadRequest 400
                (FeedbackRoutes.feedback_notification_errors V isRating b)), w))
  /\ (FeedbackRoutes.feedback_notification_errors V isRating b = [] ->
      fst (FeedbackRoutes.feedback_notification V isRating R emailService b w)
      = match fst (FeedbackService.sendFeedbackNotification R emailService
                     (feedback_request_of b) w) with
        | Normal a =>
            Normal (FeedbackRoutes.Sent 200
                      "Feedback notification sent successfully" a)
        | Abrupt _ => Abrupt (new_Error "logger is not defined")
        end)
  /\ (forall status m e,
        fst (FeedbackRoutes.feedback_notification V isRating R emailService b w)
        <> Normal (FeedbackRoutes.Failed status m e)).
Proof.
  unfold FeedbackRoutes.feedback_notification, feedback_request_of.
  destruct (FeedbackRoutes.feedback_notification_errors V isRating b) as [|x xs].
  - unfold try_catch, bind, FeedbackRoutes.logger_error, throw, ret.
    match goal with
    | |- context [FeedbackService.sendFeedbackNotification R emailService ?o w] =>
        destruct (FeedbackService.sendFeedbackNotification R emailService o w)
          as [[a|e] w']
    end; cbn [fst]; repeat split; try reflexivity; try discriminate;
      intros H; now elim H.
  - repeat split; try reflexivity; try discriminate.
Qed.

(** X20. A missing or empty customer name is the name Anonymous Customer:
    the route answers such a request as it answers the same request sent
    with that name. *)
Theorem feedback_notification_anonymous (emailService : EmailService.t)
    (b : FeedbackRoutes.Body) (w : World) :
  truthy (FeedbackRoutes.customerName b) = false ->
  FeedbackRoutes.feedback_notification V isRating R emailService b w
  = FeedbackRoutes.feedback_notification V isRating R emailService
      (with_customerName b (Some "Anonymous Customer")) w.
Proof.
  intros H. unfold FeedbackRoutes.feedback_notification, with_customerName,
    FeedbackRoutes.feedback_notification_errors.
  cbn [FeedbackRoutes.businessId FeedbackRoutes.toEmail
       FeedbackRoutes.businessName FeedbackRoutes.rating
       FeedbackRoutes.feedback FeedbackRoutes.customerName].
  destruct (truthy_false _ H) as [-> | ->]; reflexivity.
Qed.

End FeedbackRouteMore.

(** X17, on a page with markup in every escaped field. *)
Lemma generateFeedbackEmailHtml_markup_count_witness :
  count_char ">"
    (FeedbackService.generateFeedbackEmailHtml 2025
       {| FeedbackService.html_businessName := "A>B";
          FeedbackService.html_rating := Some (FeedbackService.rating_of_Z 2);
          FeedbackService.html_feedback := "<script>alert('x')</script>";
          FeedbackService.html_customerName := "<i>Jane</i>" |})
  = count_char ">"
      (FeedbackService.generateFeedbackEmailHtml 1999
         {| FeedbackService.html_businessName := "Acme";
            FeedbackService.html_rating := Some (FeedbackService.rating_of_Z 2);
            FeedbackService.html_feedback := "Slow";
            FeedbackService.html_customerName := "Jane" |}).
Proof.
  apply generateFeedbackEmailHtml_markup_count; [simpl; tauto | reflexivity].
Defined.

(** X19, on a request without business id and on a well-formed request
    to a service without key. *)
Lemma feedback_notification_outcome_witness :
  FeedbackRoutes.feedback_notification Doubles.validators Facts.digit_rating
    Doubles.unreachable Doubles.email_without_key
    {| FeedbackRoutes.businessId := None;
       FeedbackRoutes.toEmail := Some "owner@acme.test";
       FeedbackRoutes.businessName := Some "Acme";
       FeedbackRoutes.rating := Some (FeedbackService.rating_of_Z 2);
       FeedbackRoutes.feedback := Some "Slow service";
       FeedbackRoutes.customerName := None |} Doubles.world0
  = (Normal (FeedbackRoutes.BadRequest 400
               [{| path := "businessId"; msg := "Business ID is required";
                   value := None |}]), Doubles.world0)
  /\ fst (FeedbackRoutes.feedback_notification Doubles.validators
            Facts.digit_rating Doubles.unreachable Doubles.email_without_key
            Facts.good_feedback_body Doubles.world0)
     = Abrupt (new_Error "logger is not defined").
Proof.
  split.
  - refine (proj1 (feedback_notification_outcome Doubles.validators
                     Facts.digit_rating Doubles.unreachable
                     Doubles.email_without_key _ Doubles.world0) _).
    vm_compute. discriminate.
  - refine (eq_trans
              (proj1 (proj2 (feedback_notification_outcome Doubles.validators
                        Facts.digit_rating Doubles.unreachable
                        Doubles.email_without_key Facts.good_feedback_body
                        Doubles.world0)) _) _).
    + vm_compute. reflexivity.
    + vm_compute. reflexivity.
Defined.

(** X20, on a request without customer name. *)
Lemma feedback_notification_anonymous_witness :
  FeedbackRoutes.feedback_notification Doubles.validators Facts.digit_rating
    Facts.answering Doubles.email_with_key Facts.good_feedback_body Doubles.world0
  = FeedbackRoutes.feedback_notification Doubles.validators Facts.digit_rating
      Facts.answering Doubles.email_with_key
      (Facts.with_customerName Facts.good_feedback_body
         (Some "Anonymous Customer")) Doubles.world0.
Proof.
  exact (feedback_notification_anonymous Doubles.validators Facts.digit_rating
           Facts.answering Doubles.email_with_key Facts.good_feedback_body
           Doubles.world0 eq_refl).
Defined.

(** ** The error handler and the readiness check *)

Section ErrorHandlerMore.

Import Facts.
Import ErrorHandler.
Context (invalid_status : Z -> JsError).

Local Open Scope Z_scope.


End ErrorHandlerMore.

(** An error with the status code 42: the line is logged and the range
    error is thrown. *)
Example errorHandler_status_42 :
  ErrorHandler.errorHandler Facts.invalid_status_code Doubles.production
    "POST" "/api/email/test" (new_Error "teapot") (Some 42%Z) None Doubles.world0
  = (Abrupt (new_Error "Invalid status code: 42"),
     Facts.logged Doubles.world0 [(LWarn, "POST /api/email/test - teapot")]).
Proof. reflexivity. Qed.

Section ReadyMore.

Import Facts.
Import HealthRoutes.

(** X23. The readiness check looks at two variables only: it answers with
    status 200 when RESEND_API_KEY and EMAIL_FROM_ADDRESS are both set and
    not empty, and otherwise with status 503 and the names of the missing
    ones, the key first. *)
Theorem ready_response (env : Env) (timestamp : string) :
  ready env timestamp
  = if truthy (RESEND_API_KEY env) && truthy (EMAIL_FROM_ADDRESS env)
    then Ready 200 timestamp "Service is ready to handle requests"
    else NotReady 503 timestamp "Missing required environment variables"
           ((if truthy (RESEND_API_KEY env) then [] else ["RESEND_API_KEY"])
            ++ (if truthy (EMAIL_FROM_ADDRESS env) then []
                else ["EMAIL_FROM_ADDRESS"]))%list.
Proof.
  unfold ready, missingEnvVars, requiredEnvVars.
  cbn [filter]. change (env_get env "RESEND_API_KEY") with (RESEND_API_KEY env).
  change (env_get env "EMAIL_FROM_ADDRESS") with (EMAIL_FROM_ADDRESS env).
  destruct (truthy (RESEND_API_KEY env)), (truthy (EMAIL_FROM_ADDRESS env));
    reflexivity.
Qed.

(** X24. A ready server sends: when the readiness check answers with status
    200, the email service built from the same environment has a key and
    the sender address of the environment, and logs no error line when it
    is built. *)
Theorem ready_email_service (env : Env) (timestamp message : string) (w : World) :
  ready env timestamp = Ready 200 timestamp message ->
  exists this key,
    fst (EmailService.constructor env w) = Normal this
    /\ key_of this = Some key
    /\ RESEND_API_KEY env = Some key
    /\ EMAIL_FROM_ADDRESS env = Some (EmailService.fromEmail this)
    /\ forall line,
         ~ In (LError, line) (skipn (List.length (logs w))
                                (logs (snd (EmailService.constructor env w)))).
Proof.
  unfold ready, missingEnvVars, requiredEnvVars. cbn [filter].
  change (env_get env "RESEND_API_KEY") with (RESEND_API_KEY env).
  change (env_get env "EMAIL_FROM_ADDRESS") with (EMAIL_FROM_ADDRESS env).
  unfold EmailService.constructor, key_of.
  destruct (RESEND_API_KEY env) as [k|]; cbn [truthy negb];
    [destruct (String.eqb_spec k "") as [->|Hk]|]; cbn [negb];
    (destruct (EMAIL_FROM_ADDRESS env) as [a|]; cbn [truthy negb];
     [destruct (String.eqb_spec a "") as [->|Ha]|]; cbn [negb List.length Nat.ltb Nat.leb];
     try discriminate).
  intros _. unfold bind, log, ret.
  destruct (negb (truthy (EMAIL_FROM_NAME env)));
    cbn [fst snd logs calls]; do 2 eexists;
    (split; [reflexivity|]);
    cbn [EmailService.apiKey EmailService.fromEmail js_or];
    rewrite (proj2 (String.eqb_neq _ _) Hk), (proj2 (String.eqb_neq _ _) Ha);
    (split; [reflexivity|]); (split; [reflexivity|]); (split; [reflexivity|]);
    intros line; rewrite ?skipn_app, ?skipn_all, ?Nat.sub_diag; cbn [skipn app In];
    intros H; decompose [or] H; try discriminate; try contradiction.
Qed.

End ReadyMore.

(** X24, on an environment with every variable set. *)
Lemma ready_email_service_witness :
  exists this key,
    fst (EmailService.constructor Facts.full_env Doubles.world0) = Normal this
    /\ Facts.key_of this = Some key
    /\ RESEND_API_KEY Facts.full_env = Some key
    /\ EMAIL_FROM_ADDRESS Facts.full_env = Some (EmailService.fromEmail this)
    /\ forall line,
         ~ In (LError, line)
             (skipn (List.length (logs Doubles.world0))
                (logs (snd (EmailService.constructor Facts.full_env Doubles.world0)))).
Proof.
  exact (ready_email_service Facts.full_env "2025-01-01T00:00:00.000Z"
           "Service is ready to handle requests" Doubles.world0 eq_refl).
Defined.

(** ** The keep-alive statistics *)

Section KeepAliveMore.

Import ServerKeepAlive.
Import KeepAliveStats.
Local Open Scope Z_scope.

Lemma ticks_app (l l' : list (Z * PingResult)) (this : t) :
  ticks (l ++ l') this = ticks l' (ticks l this).
Proof.
  revert this. induction l as [|[now r] l IH]; intros this; [reflexivity|].
  cbn [app ticks]. apply IH.
Qed.

Lemma ticks_frame (l : list (Z * PingResult)) :
  forall this : t,
  serverUrl (ticks l this) = serverUrl this
  /\ enabled (ticks l this) = enabled this
  /\ startTime (stats (ticks l this)) = startTime (stats this).
Proof.
  induction l as [|[now r] l IH]; intros this; [repeat split|].
  cbn [ticks]. destruct (IH (performSelfPing this now r)) as [U [E S]].
  rewrite U, E, S.
  destruct (performSelfPing_stats this now r) as [_ [_ [_ [_ S1]]]].
  now rewrite S1.
Qed.

Lemma count_bounds (l : list (Z * PingResult)) :
  0 <= count is_ok_200 l /\ 0 <= count is_rejected l
  /\ count is_ok_200 l + count is_rejected l <= Z.of_nat (List.length l).
Proof.
  induction l as [|[now r] l IH].
  - unfold count. cbn. lia.
  - rewrite !count_cons. cbn [snd List.length].
    destruct r as [status|e]; cbn [is_ok_200 is_rejected];
      [destruct (status =? 200)|]; lia.
Qed.

(** X25. From its construction on, whatever the ticks and their results,
    the keep-alive object keeps its counters consistent: none is negative,
    successes and failures together never exceed the total, which is the
    number of ticks; the start time, the server address and the production
    flag never change, the address is never empty, and the last ping time
    is the time of the last tick. *)
Theorem ticks_invariant (env : Env) (now0 : Z) (l : list (Z * PingResult)) :
  let this := ticks l (constructor env now0) in
  0 <= successfulPings (stats this)
  /\ 0 <= failedPings (stats this)
  /\ successfulPings (stats this) + failedPings (stats this)
     <= totalPings (stats this)
  /\ totalPings (stats this) = Z.of_nat (List.length l)
  /\ startTime (stats this) = now0
  /\ serverUrl this = js_or (RENDER_EXTERNAL_URL env) "http://localhost:3000"
  /\ serverUrl this <> ""%string
  /\ enabled this = enabled (constructor env now0)
  /\ lastPingTime (stats this)
     = match rev l with
       | [] => None
       | (now, _) :: _ => Some now
       end.
Proof.
  cbv zeta.
  destruct (ticks_stats l (constructor env now0)) as [T [F S]].
  destruct (ticks_frame l (constructor env now0)) as [U [E St]].
  destruct (count_bounds l) as [B1 [B2 B3]].
  rewrite T, F, S, U, E, St. cbn [constructor stats totalPings failedPings
    successfulPings startTime serverUrl].
  repeat split; try lia.
  - unfold js_or. destruct (RENDER_EXTERNAL_URL env) as [u|]; [|discriminate].
    destruct (String.eqb_spec u ""); [discriminate | assumption].
  - destruct l as [|p l] using rev_ind; [reflexivity|].
    rewrite rev_app_distr, ticks_app. destruct p as [now r]. cbn [rev app ticks].
    now destruct (performSelfPing_stats (ticks l (constructor env now0)) now r)
      as [_ [_ [_ [L _]]]].
Qed.

(** X26. [getStats] reads the object as it is: it returns the counters
    unchanged with the production flag; the uptime is the whole number of
    seconds since construction; before the first tick the success rate is
    the text 0.0, and after it the rate is computed from a number of
    successes between zero and the total, with the total positive. *)
Theorem getStats_view (percent : Z -> Z -> string) (env : Env) (now0 now : Z)
    (l : list (Z * PingResult)) :
  let this := ticks l (constructor env now0) in
  let v := getStats percent this now in
  view_stats v = stats this
  /\ view_enabled v = enabled (constructor env now0)
  /\ (1000 * uptime v <= now - now0 < 1000 * uptime v + 1000)
  /\ (l = [] -> successRate v = "0.0"%string)
  /\ (l <> [] ->
      successRate v
      = percent (successfulPings (stats this)) (totalPings (stats this))
      /\ 0 <= successfulPings (stats this) <= totalPings (stats this)
      /\ 0 < totalPings (stats this)).
Proof.
  cbv zeta.
  destruct (ticks_stats l (constructor env now0)) as [T [F S]].
  destruct (ticks_frame l (constructor env now0)) as [U [E St]].
  destruct (count_bounds l) as [B1 [B2 B3]].
  unfold getStats. cbn [view_stats view_enabled uptime successRate].
  rewrite St, E. cbn [constructor stats startTime totalPings successfulPings
    failedPings] in *.
  split; [reflexivity|]. split; [reflexivity|].
  split.
  { pose proof (Z.div_mod (now - now0) 1000 ltac:(lia)) as D.
    pose proof (Z.mod_pos_bound (now - now0) 1000 ltac:(lia)) as M. lia. }
  split.
  - intros ->. reflexivity.
  - intros Hl.
    assert (0 < Z.of_nat (List.length l)) by (destruct l; [contradiction | cbn; lia]).
    destruct (Z.ltb_spec 0 (totalPings (stats (ticks l (constructor env now0)))));
      [|lia].
    split; [reflexivity|]. lia.
Qed.

End KeepAliveMore.

(** ** The message template *)

Section SmsTemplateMore.

Import SmsService.

Lemma split_first_absent (p s : string) :
  contains p s = false -> split_first p s = None.
Proof.
  induction s as [|c s IH]; cbn [contains split_first]; intros H;
    apply orb_false_elim in H as [H1 H2]; rewrite H1; [reflexivity|].
  now rewrite (IH H2).
Qed.

Lemma replace_absent (p r s : string) :
  contains p s = false -> replace p r s = s.
Proof.
  intros H. unfold replace. now rewrite (split_first_absent p s H).
Qed.

(** X27. A message template without any of the three placeholders is sent
    as it is, whatever the customer's name, the business name and the
    review link, dollar signs included. *)
Theorem generateReviewRequestMessage_without_placeholder (o : MessageOptions)
    (cd : CustomData) (template : string) :
  customData o = Some cd ->
  messageTemplate cd = Some template ->
  template <> "" ->
  contains "{{customerName}}" template = false ->
  contains "{{businessName}}" template = false ->
  contains "{{reviewLink}}" template = false ->
  generateReviewRequestMessage o = template.
Proof.
  intros Hcd Ht Hne Hc Hb Hl. unfold generateReviewRequestMessage.
  rewrite Hcd, Ht, (proj2 (String.eqb_neq _ _) Hne).
  rewrite (replace_absent _ _ template Hc), (replace_absent _ _ template Hb).
  now apply replace_absent.
Qed.

End SmsTemplateMore.

(** X27, on a template without placeholder and fields with dollar signs. *)
Lemma generateReviewRequestMessage_without_placeholder_witness :
  SmsService.generateReviewRequestMessage
    {| SmsService.customerName := "$&";
       SmsService.businessName := "$'";
       SmsService.reviewLink := "https://g.co/r";
       SmsService.customData :=
         Some {| buttonText := None;
                 messageTemplate := Some "Thanks for your visit!" |} |}
  = "Thanks for your visit!".
Proof.
  apply (generateReviewRequestMessage_without_placeholder _
           {| buttonText := None;
              messageTemplate := Some "Thanks for your visit!" |});
    try reflexivity; discriminate.
Defined.

(** ** The request body that is logged *)

Section LoggerMore.

Import LoggerMiddleware.
Context {Value : Type} (truthy_value : Value -> bool)
        (string_value : string -> Value).

Lemma set_keys (o : Object) (key : string) (v : Value) :
  map fst (set o key v) = map fst o.
Proof.
  induction o as [|[k x] o IH]; [reflexivity|].
  cbn [set]. destruct (k =? key); cbn [map fst]; [reflexivity | now rewrite IH].
Qed.

Lemma get_set_same (o : Object) (key : string) (v x : Value) :
  get o key = Some x -> get (set o key v) key = Some v.
Proof.
  induction o as [|[k y] o IH]; [discriminate|].
  cbn [get set]. destruct (k =? key) eqn:E; cbn [get]; rewrite E;
    [reflexivity | exact IH].
Qed.

Lemma get_set_other (o : Object) (key key' : string) (v : Value) :
  key' <> key -> get (set o key v) key' = get o key'.
Proof.
  intros Hne. induction o as [|[k y] o IH]; [reflexivity|].
  cbn [get set]. destruct (String.eqb_spec k key) as [->|Hk]; cbn [get].
  - now rewrite (proj2 (String.eqb_neq _ _) (not_eq_sym Hne)).
  - now rewrite IH.
Qed.

Lemma redact_keys (key : string) (o : Object) :
  map fst (redact truthy_value string_value key o) = map fst o.
Proof.
  unfold redact. destruct (get o key) as [v|]; [|reflexivity].
  destruct (truthy_value v); [apply set_keys | reflexivity].
Qed.

Lemma redact_get_other (key key' : string) (o : Object) :
  key' <> key -> get (redact truthy_value string_value key o) key' = get o key'.
Proof.
  intros Hne. unfold redact. destruct (get o key) as [v|]; [|reflexivity].
  destruct (truthy_value v); [now apply get_set_other | reflexivity].
Qed.

Lemma redact_get_same (key : string) (o : Object) :
  get (redact truthy_value string_value key o) key
  = match get o key with
    | Some v => Some (if truthy_value v then string_value "[REDACTED]" else v)
    | None => None
    end.
Proof.
  unfold redact. destruct (get o key) as [v|] eqn:E; [|exact E].
  destruct (truthy_value v); [exact (get_set_same o key _ v E) | exact E].
Qed.

Lemma sanitizedBody_get (body : Object) (key : string) :
  get (sanitizedBody truthy_value string_value body) key
  = match get body key with
    | Some v =>
        Some (if sensitive key && truthy_value v
              then string_value "[REDACTED]" else v)
    | None => None
    end.
Proof.
  unfold sanitizedBody, sensitive.
  destruct (String.eqb_spec key "apiKey") as [->|H1].
  { rewrite redact_get_same, !redact_get_other by discriminate.
    cbn [String.eqb Ascii.eqb Bool.eqb orb andb].
    destruct (get body "apiKey"); reflexivity. }
  rewrite (redact_get_other "apiKey") by assumption.
  destruct (String.eqb_spec key "token") as [->|H2].
  { rewrite redact_get_same, !redact_get_other by discriminate.
    cbn [String.eqb Ascii.eqb Bool.eqb orb andb].
    destruct (get body "token"); reflexivity. }
  rewrite (redact_get_other "token") by assumption.
  destruct (String.eqb_spec key "password") as [->|H3].
  { rewrite redact_get_same. destruct (get body "password"); reflexivity. }
  rewrite (redact_get_other "password") by assumption.
  destruct (get body key); reflexivity.
Qed.

Lemma set_same (o : Object) (key : string) (v : Value) :
  get o key = Some v -> set o key v = o.
Proof.
  induction o as [|[k y] o IH]; [reflexivity|].
  cbn [get set]. destruct (k =? key).
  - now intros [= ->].
  - intros H. now rewrite (IH H).
Qed.

(** X28. The copy of the request body that is logged has the properties of
    the body in the same order; a property named password, token or apiKey
    whose value is truthy is logged as the text [REDACTED], a falsy one and
    every other property as it is.  Only the properties of the body itself
    are looked at. *)
Theorem sanitizedBody_fields (body : Object) (key : string) :
  map fst (sanitizedBody truthy_value string_value body) = map fst body
  /\ get (sanitizedBody truthy_value string_value body) key
     = match get body key with
       | Some v =>
           Some (if sensitive key && truthy_value v
                 then string_value "[REDACTED]" else v)
       | None => None
       end.
Proof.
  split; [|apply sanitizedBody_get].
  unfold sanitizedBody. now rewrite !redact_keys.
Qed.

(** X29. The text [REDACTED] being truthy, a body that went through the
    redaction goes through it again unchanged. *)
Theorem sanitizedBody_idempotent (body : Object) :
  truthy_value (string_value "[REDACTED]") = true ->
  sanitizedBody truthy_value string_value
    (sanitizedBody truthy_value string_value body)
  = sanitizedBody truthy_value string_value body.
Proof.
  intros Ht.
  assert (Hr : forall key, sensitive key = true ->
            redact truthy_value string_value key
              (sanitizedBody truthy_value string_value body)
            = sanitizedBody truthy_value string_value body).
  { intros key Hk. unfold redact at 1.
    pose proof (sanitizedBody_get body key) as G. rewrite Hk in G.
    cbn [andb] in G.
    destruct (get body key) as [v|]; rewrite G; [|reflexivity].
    destruct (truthy_value v) eqn:Hv.
    - rewrite Ht. apply set_same. exact G.
    - rewrite Hv. reflexivity. }
  unfold sanitizedBody at 1.
  rewrite (Hr "password" eq_refl), (Hr "token" eq_refl).
  exact (Hr "apiKey" eq_refl).
Qed.

End LoggerMore.

(** X29, on a body of strings with a password. *)
Lemma sanitizedBody_idempotent_witness :
  LoggerMiddleware.sanitizedBody LoggerMiddleware.string_truthy (fun s => s)
    (LoggerMiddleware.sanitizedBody LoggerMiddleware.string_truthy (fun s => s)
       [("toEmail", "a@b.com"); ("password", "hunter2"); ("token", "")])
  = [("toEmail", "a@b.com"); ("password", "[REDACTED]"); ("token", "")].
Proof.
  exact (sanitizedBody_idempotent LoggerMiddleware.string_truthy (fun s => s)
           [("toEmail", "a@b.com"); ("password", "hunter2"); ("token", "")]
           eq_refl).
Defined.
